(** * Azure classic virtual machines: the provider adapter [classic_instance.go]

    A shallow embedding of the methods of [SClassicInstance] and of the
    [SRegion] helpers defined next to them, followed by the properties the
    adapter's specification states about them.

    The adapter talks to Azure through [SRegion]; the remote side is modelled
    as an oracle whose answers may depend on everything that happened before
    (the trace), and every remote call and every log line is recorded in that
    trace.  The receiver [self] is a pointer in Go, so the record it points to
    is part of the machine state. *)

From stdpp Require Import base strings list gmap.
From Stdlib Require Import ZArith Lia.

Local Open Scope string_scope.
Local Open Scope list_scope.
Local Open Scope Z_scope.

(** ** Data model (the JSON shapes of the classic compute API) *)

Record SubResource := {
  sr_ID : string;
  sr_Name : string;
  sr_Type : string
}.

Record ClassicVirtualMachineInstanceView := {
  Status : string;
  PowerState : string;
  PublicIpAddresses : list string;
  FullyQualifiedDomainName : string;
  UpdateDomain : Z;
  FaultDomain : Z;
  StatusMessage : string;
  PrivateIpAddress : string;
  InstanceIpAddresses : list string;
  ComputerName : string
}.

Record ClassicHardwareProfile := {
  PlatformGuestAgent : bool;
  Size : string;
  DeploymentName : string;
  DeploymentId : string;
  DeploymentLabel : string;
  DeploymentLocked : bool
}.

Record InputEndpoint := {
  EndpointName : string;
  PrivatePort : Z;
  PublicPort : Z;
  Protocol : string;
  EnableDirectServerReturn : bool
}.

Record InstanceIp := {
  IdleTimeoutInMinutes : Z;
  iip_ID : string;
  iip_Name : string;
  iip_Type : string
}.

Record ClassicVirtualNetwork := {
  StaticIpAddress : string;
  SubnetNames : list string;
  vn_ID : string;
  vn_Name : string;
  vn_Type : string
}.

(** Pointer fields ([*[]T], [*T]) are options: [None] is Go's [nil]. *)
Record ClassicNetworkProfile := {
  InputEndpoints : option (list InputEndpoint);
  InstanceIps : option (list InstanceIp);
  ReservedIps : option (list SubResource);
  VirtualNetwork : ClassicVirtualNetwork;
  NetworkSecurityGroup : option SubResource
}.

Record ClassicVirtualMachineProperties := {
  DomainName : option SubResource;
  InstanceView : option ClassicVirtualMachineInstanceView;
  NetworkProfile : ClassicNetworkProfile;
  HardwareProfile : ClassicHardwareProfile
}.

(** [SClassicInstance].  The [host] back pointer only serves to reach the
    region, which is the ambient [region] of the operations below. *)
Record SClassicInstance := {
  Properties : ClassicVirtualMachineProperties;
  ID : string;
  Name : string;
  Type_ : string;
  Location : string
}.

(** The fields of the sibling resources that this file reads or writes. *)
Record ClassicEipProperties := {
  IpAddress : string;
  AttachedTo : option SubResource
}.

Record SClassicEipAddress := {
  eip_ID : string;
  eip_instanceId : string;
  eip_Name : string;
  eip_Properties : ClassicEipProperties
}.

Record SClassicSecurityGroup := {
  sg_ID : string;
  sg_Name : string
}.

Record SClassicDisk := {
  disk_ID : string;
  disk_Name : string
}.

Record SClassicInstanceNic := {
  nic_ID : string;
  nic_IP : string
}.

Record SClassicVMSize := {
  NumberOfCores : Z;
  MemoryInMB : Z
}.

Record assignProperties := {
  ap_NetworkSecurityGroup : SubResource
}.

Record assignSecurityGroup := {
  asg_ID : string;
  asg_Name : string;
  asg_Properties : assignProperties;
  asg_Type : string
}.

Record ServerStopOptions := {
  IsForce : bool
}.

(** ** Errors *)

Inductive error :=
| ErrNotSupported
| ErrNotImplemented
| ErrTimeout
| ErrRemote (msg : string)
| ErrWrap (cause : error) (msg : string).

(** [errors.Wrapf(err, msg)] *)
Definition Wrapf (err : error) (msg : string) : error := ErrWrap err msg.

(** ** Constants of the [apis/compute] package and of [time] *)

Definition VM_READY : string := "ready".
Definition VM_RUNNING : string := "running".
Definition VM_UNKNOWN : string := "unknown".

(** A [time.Duration] counts nanoseconds. *)
Definition Second : Z := 1000000000.

(** ** The trace: remote calls and log lines, oldest first *)

Inductive Call :=
| RGet (resource : string) (params : list (string * string))
| RGetClassicEip (id : string)
| RGetClassicSecurityGroupDetails (id : string)
| RStartVM (id : string)
| RDeleteVM (id : string)
| RAttachDisk (id diskId : string)
| RDetachDisk (id diskId : string)
| RPerform (id action : string)
| RDel (resource : string)
| RUpdate (body : assignSecurityGroup).

Inductive Event :=
| ECall (c : Call) (failed : option error)
| ELog (msg : string).

Definition call_of (e : Event) : option Call :=
  match e with ECall c _ => Some c | ELog _ => None end.

Definition failure_of (e : Event) : option (Call * error) :=
  match e with ECall c (Some err) => Some (c, err) | _ => None end.

(** The remote calls of a trace, in order. *)
Definition calls (t : list Event) : list Call := omap call_of t.

(** The failed remote calls of a trace, with their errors. *)
Definition failures (t : list Event) : list (Call * error) := omap failure_of t.

(** ** The remote side

    Each field answers one verb of [SRegion]; the first argument is the trace
    so far, so the remote state may change between two calls. *)
Record SRegion := {
  get_instance : list Event -> string -> list (string * string) ->
                 SClassicInstance * option error;
  get_disks : list Event -> string -> list SClassicDisk * option error;
  GetClassicEip : list Event -> string -> error + SClassicEipAddress;
  GetClassicSecurityGroupDetails : list Event -> string -> error + SClassicSecurityGroup;
  region_StartVM : list Event -> string -> option error;
  region_DeleteVM : list Event -> string -> option error;
  region_AttachDisk : list Event -> string -> string -> option error;
  region_DetachDisk : list Event -> string -> string -> option error;
  perform : list Event -> string -> string -> option error;
  del : list Event -> string -> option error;
  update : list Event -> assignSecurityGroup -> option error
}.

(** ** The machine and its monad *)

Record Machine := {
  self : SClassicInstance;
  trace : list Event
}.

Inductive Outcome (A : Type) :=
| Ret (a : A)
| Panic (msg : string).
Arguments Ret {A} a.
Arguments Panic {A} msg.

Definition M (A : Type) : Type := Machine -> Outcome A * Machine.

#[global] Instance M_ret : MRet M := fun A a m => (Ret a, m).

#[global] Instance M_bind : MBind M := fun A B f c m =>
  match c m with
  | (Ret a, m') => f a m'
  | (Panic msg, m') => (Panic msg, m')
  end.

Definition getSelf : M SClassicInstance := fun m => (Ret (self m), m).

Definition putSelf (s : SClassicInstance) : M unit :=
  fun m => (Ret tt, {| self := s; trace := trace m |}).

Definition emit (e : Event) (m : Machine) : Machine :=
  {| self := self m; trace := trace m ++ [e] |}.

(** [log.Errorf] with the message already formatted *)
Definition log_Errorf (msg : string) : M unit :=
  fun m => (Ret tt, emit (ELog msg) m).

Definition panic {A} (msg : string) : M A := fun m => (Panic msg, m).

(** One remote call: ask the oracle, record the call and whether it failed. *)
Definition remote {A} (c : Call) (answer : list Event -> A)
    (err_of : A -> option error) : M A :=
  fun m => let r := answer (trace m) in (Ret r, emit (ECall c (err_of r)) m).

Definition sum_err {A} (r : error + A) : option error :=
  match r with inl e => Some e | inr _ => None end.

(** [len(s) > 0] *)
Definition nonempty (s : string) : bool := (0 <? String.length s)%nat.

Definition nil_deref : string := "invalid memory address or nil pointer dereference".

(** ** The adapter *)

Section Adapter.

(** [self.host.zone.region] *)
Variable region : SRegion.

(** [jsonutils.Update(dst, src)] of the JSON library: the updated [dst] and
    the error it reports. *)
Variable jsonutils_Update :
  SClassicInstance -> SClassicInstance -> SClassicInstance * option error.

(** [cloudprovider.WaitStatus(self, expect, interval, timeout)], the polling
    primitive of the generic layer; it works on the receiver in place. *)
Variable WaitStatus : string -> Z -> Z -> M (option error).

(** The VM-size table of the package. *)
Variable CLASSIC_VM_SIZES : gmap string SClassicVMSize.

Definition expand_instanceView : list (string * string) :=
  [("$expand", "instanceView")].

(** *** Helpers on [SRegion] defined in this file *)

Definition GetClassicInstance (instanceId : string)
    : M (SClassicInstance * option error) :=
  remote (RGet instanceId expand_instanceView)
         (fun t => get_instance region t instanceId expand_instanceView) snd.

Definition GetClassicInstanceDisks (instanceId : string)
    : M (list SClassicDisk * option error) :=
  let resource := instanceId +:+ "/disks" in
  '(value, err) ← remote (RGet resource []) (fun t => get_disks region t resource) snd;
  match err with
  | Some e => mret ([], Some (Wrapf e "list"))
  | None => mret (value, None)
  end.

Definition StopClassicVM (instanceId : string) (isForce : bool) : M (option error) :=
  remote (RPerform instanceId "shutdown")
         (fun t => perform region t instanceId "shutdown") id.

(** *** Methods of [SClassicInstance] *)

Definition GetSecurityGroupIds : M (list string * option error) :=
  s ← getSelf;
  match NetworkSecurityGroup (NetworkProfile (Properties s)) with
  | Some g => mret ([sr_ID g], None)
  | None => mret ([], None)
  end.

Definition GetInstanceType : M string :=
  s ← getSelf; mret (Size (HardwareProfile (Properties s))).

Definition getNics : M (list SClassicInstanceNic * option error) :=
  s ← getSelf;
  '(instance, err) ← GetClassicInstance (ID s);
  match err with
  | Some e => mret ([], Some e)
  | None =>
    let networkProfile := NetworkProfile (Properties instance) in
    let ip := "" in
    let id := "" in
    let id :=
      match SubnetNames (VirtualNetwork networkProfile) with
      | name0 :: _ => vn_ID (VirtualNetwork networkProfile) +:+ "/" +:+ name0
      | [] => id
      end in
    let ip :=
      if nonempty (StaticIpAddress (VirtualNetwork networkProfile))
      then StaticIpAddress (VirtualNetwork networkProfile)
      else ip in
    let '(id, ip) :=
      match InstanceView (Properties instance) with
      | Some view =>
        if (negb (nonempty id) || negb (nonempty ip))
           && nonempty (PrivateIpAddress view)
        then
          let id := if negb (nonempty id)
                    then ID s +:+ "/" +:+ PrivateIpAddress view else id in
          let ip := if negb (nonempty ip) then PrivateIpAddress view else ip in
          (id, ip)
        else (id, ip)
      | None => (id, ip)
      end in
    if nonempty id && nonempty ip
    then mret ([{| nic_ID := id; nic_IP := ip |}], None)
    else mret ([], None)
  end.

Definition Refresh : M (option error) :=
  s ← getSelf;
  '(instance, err) ← GetClassicInstance (ID s);
  match err with
  | Some e => mret (Some e)
  | None =>
    let '(s', uerr) := jsonutils_Update s instance in
    putSelf s';; mret uerr
  end.

Definition GetStatus : M string :=
  s ← getSelf;
  early ← match InstanceView (Properties s) with
          | None =>
            err ← Refresh;
            match err with
            | Some _ =>
              s ← getSelf;
              log_Errorf ("failed to get status for classic instance " +:+ Name s);;
              mret (Some VM_UNKNOWN)
            | None => mret None
            end
          | Some _ => mret None
          end;
  match early with
  | Some st => mret st
  | None =>
    s ← getSelf;
    match InstanceView (Properties s) with
    | None => panic nil_deref
    | Some view =>
      if String.eqb (Status view) "StoppedDeallocated" then mret VM_READY
      else if String.eqb (Status view) "ReadyRole" then mret VM_RUNNING
      else if String.eqb (Status view) "Stopped" then mret VM_READY
      else if String.eqb (Status view) "RoleStateUnknown" then mret VM_UNKNOWN
      else
        log_Errorf ("Unknow classic instance " +:+ Name s +:+ " status "
                    +:+ Status view);;
        mret VM_UNKNOWN
    end
  end.

Definition AttachDisk (diskId : string) : M (option error) :=
  status ← GetStatus;
  s ← getSelf;
  err ← remote (RAttachDisk (ID s) diskId)
               (fun t => region_AttachDisk region t (ID s) diskId) id;
  match err with
  | Some e => mret (Some e)
  | None => WaitStatus status (10 * Second) (300 * Second)
  end.

Definition DetachDisk (diskId : string) : M (option error) :=
  status ← GetStatus;
  s ← getSelf;
  err ← remote (RDetachDisk (ID s) diskId)
               (fun t => region_DetachDisk region t (ID s) diskId) id;
  match err with
  | Some e => mret (Some e)
  | None => WaitStatus status (10 * Second) (300 * Second)
  end.

Definition ChangeConfig : M (option error) := mret (Some ErrNotImplemented).

Definition DeployVM (name username password publicKey : string)
    (deleteKeypair : bool) (description : string) : M (option error) :=
  mret (Some ErrNotImplemented).

Definition RebuildRoot : M (string * option error) :=
  mret ("", Some ErrNotImplemented).

Definition UpdateVM : M (option error) := mret (Some ErrNotSupported).

Definition DeleteVM : M (option error) :=
  s ← getSelf;
  err ← remote (RDeleteVM (ID s)) (fun t => region_DeleteVM region t (ID s)) id;
  match err with
  | Some e => mret (Some e)
  | None =>
    match NetworkSecurityGroup (NetworkProfile (Properties s)) with
    | Some g => _ ← remote (RDel (sr_ID g)) (fun t => del region t (sr_ID g)) id; mret tt
    | None => mret tt
    end;;
    match DomainName (Properties s) with
    | Some d => _ ← remote (RDel (sr_ID d)) (fun t => del region t (sr_ID d)) id; mret tt
    | None => mret tt
    end;;
    mret None
  end.

Definition GetIDisks : M (list SClassicDisk * option error) :=
  s ← getSelf;
  '(disks, err) ← GetClassicInstanceDisks (ID s);
  match err with
  | Some e => mret ([], Some (Wrapf e "GetClassicInstanceDisks"))
  | None => mret (disks, None)
  end.

Definition GetINics : M (list SClassicInstanceNic * option error) :=
  '(nics, err) ← getNics;
  match err with
  | Some e => mret ([], Some e)
  | None => mret (nics, None)
  end.

Definition GetVcpuCount : M Z :=
  s ← getSelf;
  match CLASSIC_VM_SIZES !! Size (HardwareProfile (Properties s)) with
  | Some vmSize => mret (NumberOfCores vmSize)
  | None =>
    log_Errorf ("failed to find classic VMSize for "
                +:+ Size (HardwareProfile (Properties s)));;
    mret 0
  end.

Definition GetVmemSizeMB : M Z :=
  s ← getSelf;
  match CLASSIC_VM_SIZES !! Size (HardwareProfile (Properties s)) with
  | Some vmSize => mret (MemoryInMB vmSize)
  | None =>
    log_Errorf ("failed to find classic VMSize for "
                +:+ Size (HardwareProfile (Properties s)));;
    mret 0
  end.

(** The result is a nil [*ServerVncOutput] and the error. *)
Definition GetVNCInfo {I O : Type} (input : option I) : M (option O * option error) :=
  mret (None, Some ErrNotSupported).


Definition StopVM (opts : option ServerStopOptions) : M (option error) :=
  s ← getSelf;
  match opts with
  | None => panic nil_deref
  | Some o =>
    err ← StopClassicVM (ID s) (IsForce o);
    match err with
    | Some e => mret (Some e)
    | None => WaitStatus VM_READY (10 * Second) (300 * Second)
    end
  end.

(** The [for ... range] over the reserved IPs: [Some r] when the body
    returned [r], [None] when the loop ran to its end. *)
Fixpoint GetIEIP_loop (reservedIps : list SubResource)
    : M (option (option SClassicEipAddress * option error)) :=
  match reservedIps with
  | [] => mret None
  | reserveIp :: rest =>
    s ← getSelf;
    r ← remote (RGetClassicEip (sr_ID reserveIp))
               (fun t => GetClassicEip region t (sr_ID reserveIp)) sum_err;
    match r with
    | inr eip =>
      let eip := {| eip_ID := eip_ID eip; eip_instanceId := ID s;
                    eip_Name := eip_Name eip;
                    eip_Properties := eip_Properties eip |} in
      match AttachedTo (eip_Properties eip) with
      | Some a =>
        if negb (String.eqb (sr_ID a) (ID s))
        then mret (Some (None, None))
        else mret (Some (Some eip, None))
      | None => mret (Some (Some eip, None))
      end
    | inl _ =>
      log_Errorf ("failed find eip " +:+ sr_Name reserveIp
                  +:+ " for classic instance " +:+ Name s);;
      GetIEIP_loop rest
    end
  end.

Definition GetIEIP : M (option SClassicEipAddress * option error) :=
  s ← getSelf;
  found ← match ReservedIps (NetworkProfile (Properties s)) with
          | Some (r :: rs) => GetIEIP_loop (r :: rs)
          | _ => mret None
          end;
  match found with
  | Some r => mret r
  | None =>
    match InstanceView (Properties s) with
    | Some view =>
      match PublicIpAddresses view with
      | addr0 :: _ =>
        mret (Some {| eip_ID := ID s; eip_instanceId := ID s; eip_Name := addr0;
                      eip_Properties := {| IpAddress := addr0; AttachedTo := None |} |},
              None)
      | [] => mret (None, None)
      end
    | None => mret (None, None)
    end
  end.

Definition SetSecurityGroups (secgroupIds : list string) : M (option error) :=
  mret (Some ErrNotSupported).

Definition AssignSecurityGroup (secgroupId : string) : M (option error) :=
  s ← getSelf;
  early ← match NetworkSecurityGroup (NetworkProfile (Properties s)) with
          | Some g =>
            if String.eqb (sr_ID g) secgroupId then mret true
            else
              let resource := ID s +:+ "/associatedNetworkSecurityGroups/"
                              +:+ sr_Name g in
              _ ← remote (RDel resource) (fun t => del region t resource) id;
              mret false
          | None => mret false
          end;
  if early : bool then mret None
  else
    r ← remote (RGetClassicSecurityGroupDetails secgroupId)
               (fun t => GetClassicSecurityGroupDetails region t secgroupId) sum_err;
    match r with
    | inl e => mret (Some e)
    | inr secgroup =>
      let data :=
        {| asg_ID := ID s +:+ "/associatedNetworkSecurityGroups/" +:+ sg_Name secgroup;
           asg_Name := sg_Name secgroup;
           asg_Properties :=
             {| ap_NetworkSecurityGroup :=
                  {| sr_ID := sg_ID secgroup; sr_Name := sg_Name secgroup;
                     sr_Type := "" |} |};
           asg_Type := "" |} in
      remote (RUpdate data) (fun t => update region t data) id
    end.

Definition UpdateUserData (userData : string) : M (option error) :=
  mret (Some ErrNotSupported).

Definition Renew {B : Type} (bc : B) : M (option error) :=
  mret (Some ErrNotSupported).

End Adapter.

(** ** Vocabulary of the properties *)

(** The attachment test of [GetIEIP]: the reserved IP names a holder, and the
    holder is not this instance. *)
Definition attached_elsewhere (selfId : string) (eip : SClassicEipAddress) : bool :=
  match AttachedTo (eip_Properties eip) with
  | Some a => negb (String.eqb (sr_ID a) selfId)
  | None => false
  end.

(** What [GetIEIP] hands out for a reserved IP it accepts. *)
Definition claimed_by (selfId : string) (eip : SClassicEipAddress) : SClassicEipAddress :=
  {| eip_ID := eip_ID eip; eip_instanceId := selfId; eip_Name := eip_Name eip;
     eip_Properties := eip_Properties eip |}.

(** The external address synthesized from a public IP of the instance view. *)
Definition synthesized_eip (selfId addr : string) : SClassicEipAddress :=
  {| eip_ID := selfId; eip_instanceId := selfId; eip_Name := addr;
     eip_Properties := {| IpAddress := addr; AttachedTo := None |} |}.

(** The public-IP fallback of [GetIEIP]. *)
Definition public_ip_fallback (s : SClassicInstance) : option SClassicEipAddress :=
  match InstanceView (Properties s) with
  | Some view =>
    match PublicIpAddresses view with
    | addr0 :: _ => Some (synthesized_eip (ID s) addr0)
    | [] => None
    end
  | None => None
  end.

Definition reserved_candidates (s : SClassicInstance) : list SubResource :=
  default [] (ReservedIps (NetworkProfile (Properties s))).

Definition private_ip_of (instance : SClassicInstance) : string :=
  match InstanceView (Properties instance) with
  | Some view => PrivateIpAddress view
  | None => ""
  end.




(** The reading of the external-address resolver in which a reserved IP held
    by another instance is passed over and the scan goes on. *)
Definition skips_reassigned (region : SRegion) : Prop :=
  forall m reserveIp rest eip,
    GetClassicEip region (trace m) (sr_ID reserveIp) = inr eip ->
    attached_elsewhere (ID (self m)) eip = true ->
    GetIEIP_loop region (reserveIp :: rest) m =
    GetIEIP_loop region rest (emit (ECall (RGetClassicEip (sr_ID reserveIp)) None) m).

(** The reading in which the resolver answers "none" only once every reserved
    candidate has failed and the public-IP fallback is empty as well. *)
Definition none_only_by_exhaustion (region : SRegion) : Prop :=
  forall m err m' evs,
    GetIEIP region m = (Ret (None, err), m') ->
    trace m' = trace m ++ evs ->
    length (failures evs) = length (reserved_candidates (self m))
    /\ public_ip_fallback (self m) = None.

(** ** Concrete instances, regions and collaborators used in the examples *)

Definition mk_view (status privateIp : string) (publicIps : list string)
    : ClassicVirtualMachineInstanceView :=
  {| Status := status; PowerState := ""; PublicIpAddresses := publicIps;
     FullyQualifiedDomainName := ""; UpdateDomain := 0; FaultDomain := 0;
     StatusMessage := ""; PrivateIpAddress := privateIp;
     InstanceIpAddresses := []; ComputerName := "" |}.

Definition mk_vnet (staticIp : string) (subnets : list string) : ClassicVirtualNetwork :=
  {| StaticIpAddress := staticIp; SubnetNames := subnets; vn_ID := "vnet-1";
     vn_Name := "vnet"; vn_Type := "" |}.

Definition mk_sub (id name : string) : SubResource :=
  {| sr_ID := id; sr_Name := name; sr_Type := "" |}.

Definition mk_instance (view : option ClassicVirtualMachineInstanceView)
    (vnet : ClassicVirtualNetwork) (reserved : option (list SubResource))
    (nsg domain : option SubResource) (size : string) : SClassicInstance :=
  {| Properties :=
       {| DomainName := domain; InstanceView := view;
          NetworkProfile :=
            {| InputEndpoints := None; InstanceIps := None; ReservedIps := reserved;
               VirtualNetwork := vnet; NetworkSecurityGroup := nsg |};
          HardwareProfile :=
            {| PlatformGuestAgent := false; Size := size; DeploymentName := "";
               DeploymentId := ""; DeploymentLabel := ""; DeploymentLocked := false |} |};
     ID := "vm-1"; Name := "web"; Type_ := ""; Location := "" |}.

Definition mk_eip (id : string) (attachedTo : option SubResource) : SClassicEipAddress :=
  {| eip_ID := id; eip_instanceId := ""; eip_Name := id;
     eip_Properties := {| IpAddress := "52.0.0.1"; AttachedTo := attachedTo |} |}.

Definition start (s : SClassicInstance) : Machine := {| self := s; trace := [] |}.

(** A region that answers every fetch of an instance with [fetched], every
    reserved-IP lookup with [eips], every [del] with [del_result] and every
    triggering action with [action_result]. *)
Definition mk_region (fetched : SClassicInstance * option error)
    (eips : string -> error + SClassicEipAddress)
    (del_result action_result : option error) : SRegion :=
  {| get_instance := fun _ _ _ => fetched;
     get_disks := fun _ _ => ([], action_result);
     GetClassicEip := fun _ id => eips id;
     GetClassicSecurityGroupDetails := fun _ id =>
       match action_result with
       | Some e => inl e
       | None => inr {| sg_ID := id; sg_Name := "sg" |}
       end;
     region_StartVM := fun _ _ => action_result;
     region_DeleteVM := fun _ _ => action_result;
     region_AttachDisk := fun _ _ _ => action_result;
     region_DetachDisk := fun _ _ _ => action_result;
     perform := fun _ _ _ => action_result;
     del := fun _ _ => del_result;
     update := fun _ _ => action_result |}.

Definition no_eips (id : string) : error + SClassicEipAddress :=
  inl (ErrRemote "ResourceNotFound").

(** [jsonutils.Update] that takes every exported field from the fetched record. *)
Definition overwrite_Update (dst src : SClassicInstance)
    : SClassicInstance * option error := (src, None).

(** A polling primitive that polls once. *)
Definition poll_once (region : SRegion) (expect : string) (interval timeout : Z)
    : M (option error) :=
  err ← Refresh region overwrite_Update;
  match err with
  | Some e => mret (Some e)
  | None =>
    st ← GetStatus region overwrite_Update;
    if String.eqb st expect then mret None else mret (Some ErrTimeout)
  end.

Definition demo_sizes : gmap string SClassicVMSize :=
  {[ "Standard_A1" := {| NumberOfCores := 1; MemoryInMB := 1792 |} ]}.

(** Reserved IPs known to the remote side; any other lookup fails. *)
Definition lookup_eips (table : gmap string SClassicEipAddress) (id : string)
    : error + SClassicEipAddress :=
  match table !! id with
  | Some eip => inr eip
  | None => inl (ErrRemote "ResourceNotFound")
  end.

(** "rip-1" has been moved to another machine, "rip-2" is held by "vm-1". *)
Definition moved_eips : gmap string SClassicEipAddress :=
  {[ "rip-1" := mk_eip "rip-1" (Some (mk_sub "vm-2" "batch"));
     "rip-2" := mk_eip "rip-2" (Some (mk_sub "vm-1" "web")) ]}.

Definition moved_region : SRegion :=
  mk_region (mk_instance None (mk_vnet "" []) None None None "", None)
            (lookup_eips moved_eips) None None.

Definition two_reserved : SClassicInstance :=
  mk_instance None (mk_vnet "" [])
              (Some [mk_sub "rip-1" "first"; mk_sub "rip-2" "second"]) None None "".

Definition three_reserved_and_public : SClassicInstance :=
  mk_instance (Some (mk_view "ReadyRole" "10.0.0.4" ["40.1.1.1"])) (mk_vnet "" [])
              (Some [mk_sub "rip-0" "gone"; mk_sub "rip-1" "first";
                     mk_sub "rip-2" "second"]) None None "".

(** A machine with a security group and a domain name, and a region whose
    [del] fails while everything else works. *)
Definition grouped : SClassicInstance :=
  mk_instance None (mk_vnet "" []) None (Some (mk_sub "nsg-1" "front"))
              (Some (mk_sub "dns-1" "web")) "".

Definition del_fails_region : SRegion :=
  mk_region (grouped, None) no_eips (Some (ErrRemote "Conflict")) None.

(** ** Vocabulary of the further properties *)

Definition log_line_of (e : Event) : option string :=
  match e with ELog msg => Some msg | ECall _ _ => None end.

(** The log lines of a trace, in order. *)
Definition log_lines (t : list Event) : list string := omap log_line_of t.

(** The lookup that [GetIEIP] issues for a reserved IP. *)
Definition eip_lookup (reserveIp : SubResource) : Call :=
  RGetClassicEip (sr_ID reserveIp).

(** The resource that ties a security group to an instance. *)
Definition association_path (selfId name : string) : string :=
  selfId +:+ "/associatedNetworkSecurityGroups/" +:+ name.

(** The body that [AssignSecurityGroup] sends for a fetched security group. *)
Definition association_body (selfId : string) (secgroup : SClassicSecurityGroup)
    : assignSecurityGroup :=
  {| asg_ID := association_path selfId (sg_Name secgroup);
     asg_Name := sg_Name secgroup;
     asg_Properties :=
       {| ap_NetworkSecurityGroup :=
            {| sr_ID := sg_ID secgroup; sr_Name := sg_Name secgroup; sr_Type := "" |} |};
     asg_Type := "" |}.

(** The clean-up deletions of [DeleteVM], in the order it issues them. *)
Definition cleanup_calls (s : SClassicInstance) : list Call :=
  match NetworkSecurityGroup (NetworkProfile (Properties s)) with
  | Some g => [RDel (sr_ID g)]
  | None => []
  end ++
  match DomainName (Properties s) with
  | Some d => [RDel (sr_ID d)]
  | None => []
  end.

Definition well_formed_nic (nic : SClassicInstanceNic) : Prop :=
  nonempty (nic_ID nic) = true /\ nonempty (nic_IP nic) = true.

(** [GetSysTags].  The name of the region and the global ID of the zone come
    from the host hierarchy, [self.host.zone], and are taken as given. *)
Definition GetSysTags (regionName zoneGlobalId : string) : M (gmap string string) :=
  s ← getSelf;
  let data : gmap string string := ∅ in
  let priceKey := Size (HardwareProfile (Properties s)) +:+ "::" +:+ regionName in
  let data := <["price_key" := priceKey]> data in
  let data := <["zone_ext_id" := zoneGlobalId]> data in
  mret data.

(** The events of a lookup of a reserved IP that fails: the call, then the
    log line, which names the receiver. *)
Definition failed_lookup_events (name : string) (reserveIp : SubResource) (e : error)
    : list Event :=
  [ECall (eip_lookup reserveIp) (Some e);
   ELog ("failed find eip " +:+ sr_Name reserveIp
         +:+ " for classic instance " +:+ name)].

(** The remote side asked for the candidates one after the other, starting
    at trace [t]: the events of these lookups if every one of them fails,
    and [None] as soon as one succeeds. *)
Fixpoint failed_scan (region : SRegion) (name : string) (t : list Event)
    (candidates : list SubResource) : option (list Event) :=
  match candidates with
  | [] => Some []
  | reserveIp :: rest =>
    match GetClassicEip region t (sr_ID reserveIp) with
    | inl e =>
      let evs := failed_lookup_events name reserveIp e in
      match failed_scan region name (t ++ evs) rest with
      | Some more => Some (evs ++ more)
      | None => None
      end
    | inr _ => None
    end
  end.

(** ** Proof support *)

Ltac mrun :=
  unfold mbind, M_bind, mret, M_ret, getSelf, putSelf, log_Errorf, remote, panic;
  simpl.

Ltac mrun_in H :=
  unfold mbind, M_bind, mret, M_ret, getSelf, putSelf, log_Errorf, remote, panic in H;
  simpl in H.

Lemma nonempty_path a b : nonempty (a +:+ "/" +:+ b) = true.
Proof. unfold nonempty. destruct a; reflexivity. Qed.

Lemma calls_app t1 t2 : calls (t1 ++ t2) = calls t1 ++ calls t2.
Proof. unfold calls. apply omap_app. Qed.


(** ** Unsupported operations *)

(** C7: console access ([GetVNCInfo]), billing renewal ([Renew]), user-data
    update ([UpdateUserData]) and [SetSecurityGroups] answer [ErrNotSupported]
    for every input and leave the machine, hence the trace of remote calls,
    exactly as it was. *)
Theorem unsupported_operations_not_supported :
  forall (I O B : Type) (input : option I) (bc : B) (userData : string)
         (secgroupIds : list string) (m : Machine),
    GetVNCInfo (O := O) input m = (Ret (None, Some ErrNotSupported), m)
    /\ Renew bc m = (Ret (Some ErrNotSupported), m)
    /\ UpdateUserData userData m = (Ret (Some ErrNotSupported), m)
    /\ SetSecurityGroups secgroupIds m = (Ret (Some ErrNotSupported), m).
Proof. intros. repeat split. Qed.

(** ** Security group assignment *)

(** C10: when the network profile already references the requested security
    group, [AssignSecurityGroup] succeeds at once: no remote call, no log
    line, the instance record untouched. *)
Theorem AssignSecurityGroup_same_group_noop :
  forall (region : SRegion) (secgroupId : string) (m : Machine) (g : SubResource),
    NetworkSecurityGroup (NetworkProfile (Properties (self m))) = Some g ->
    sr_ID g = secgroupId ->
    AssignSecurityGroup region secgroupId m = (Ret None, m).
Proof.
  intros region secgroupId m g Hg Hid.
  unfold AssignSecurityGroup. mrun.
  rewrite Hg. subst secgroupId. now rewrite String.eqb_refl.
Qed.

Lemma AssignSecurityGroup_same_group_noop_witness :
  let s := mk_instance None (mk_vnet "" []) None (Some (mk_sub "nsg-1" "front")) None "" in
  AssignSecurityGroup (mk_region (s, None) no_eips (Some (ErrRemote "down")) None)
                      "nsg-1" (start s)
  = (Ret None, start s).
Proof.
  intros s.
  apply (AssignSecurityGroup_same_group_noop _ "nsg-1" (start s) (mk_sub "nsg-1" "front"));
    reflexivity.
Defined.

(** ** VM sizes *)

(** C9: a size that the table does not list makes [GetVcpuCount] and
    [GetVmemSizeMB] log the unknown size and return 0; and for every size
    string both return a number: no panic, and their type has no error. *)
Theorem unknown_size_returns_zero :
  forall (sizes : gmap string SClassicVMSize) (m : Machine),
    (sizes !! Size (HardwareProfile (Properties (self m))) = None ->
       let line := ELog ("failed to find classic VMSize for "
                         +:+ Size (HardwareProfile (Properties (self m)))) in
       GetVcpuCount sizes m = (Ret 0, emit line m)
       /\ GetVmemSizeMB sizes m = (Ret 0, emit line m))
    /\ (exists cores m1, GetVcpuCount sizes m = (Ret cores, m1))
    /\ (exists mb m2, GetVmemSizeMB sizes m = (Ret mb, m2)).
Proof.
  intros sizes m. unfold GetVcpuCount, GetVmemSizeMB. mrun.
  destruct (sizes !! Size (HardwareProfile (Properties (self m)))) as [vmSize|] eqn:E.
  - split; [discriminate|]. split; eauto.
  - split; [intros _; split; reflexivity|]. split; eauto.
Qed.

Lemma unknown_size_returns_zero_witness :
  let s := mk_instance None (mk_vnet "" []) None None None "Basic_Z9" in
  GetVcpuCount demo_sizes (start s)
  = (Ret 0, emit (ELog "failed to find classic VMSize for Basic_Z9") (start s))
  /\ GetVmemSizeMB demo_sizes (start s)
     = (Ret 0, emit (ELog "failed to find classic VMSize for Basic_Z9") (start s)).
Proof.
  intros s.
  exact (proj1 (unknown_size_returns_zero demo_sizes (start s)) eq_refl).
Defined.

(** ** Status normalizer *)



(** ** Network identity *)

(** C1: once the instance has been fetched, [getNics] resolves the identity
    by this precedence.  The id is [virtualNetworkId/firstSubnetName] when
    the virtual network lists a subnet, and otherwise [instanceId/privateIp]
    when the instance view has a private IP; the ip is the static IP when
    there is one, and otherwise that private IP.  A value taken from the
    static configuration is never replaced.  One nic with this pair is
    returned when both parts are non-empty; otherwise nothing is returned,
    and in both cases without an error. *)
Theorem getNics_precedence :
  forall (region : SRegion) (m : Machine) (instance : SClassicInstance),
    get_instance region (trace m) (ID (self m)) expand_instanceView = (instance, None) ->
    let vnet := VirtualNetwork (NetworkProfile (Properties instance)) in
    let live := private_ip_of instance in
    let id := match SubnetNames vnet with
              | name0 :: _ => vn_ID vnet +:+ "/" +:+ name0
              | [] => if nonempty live then ID (self m) +:+ "/" +:+ live else ""
              end in
    let ip := if nonempty (StaticIpAddress vnet) then StaticIpAddress vnet else live in
    getNics region m =
    (Ret (if nonempty id && nonempty ip then [{| nic_ID := id; nic_IP := ip |}] else [],
          None),
     emit (ECall (RGet (ID (self m)) expand_instanceView) None) m).
Proof.
  intros region m instance Hfetch vnet live id ip.
  subst vnet live id ip.
  unfold getNics, GetClassicInstance, private_ip_of. mrun.
  rewrite Hfetch. simpl.
  destruct (SubnetNames (VirtualNetwork (NetworkProfile (Properties instance))))
    as [|name0 names];
    destruct (nonempty (StaticIpAddress
                          (VirtualNetwork (NetworkProfile (Properties instance)))))
      eqn:Hstatic;
    destruct (InstanceView (Properties instance)) as [view|]; simpl;
    try rewrite nonempty_path; simpl;
    try rewrite Hstatic; simpl;
    try (destruct (nonempty (PrivateIpAddress view)) eqn:Hlive; simpl);
    try rewrite nonempty_path; simpl;
    try rewrite Hstatic; simpl;
    try rewrite Hlive; simpl;
    reflexivity.
Qed.

Lemma getNics_precedence_witness :
  let fetched := mk_instance (Some (mk_view "ReadyRole" "10.0.0.4" []))
                             (mk_vnet "10.0.0.9" ["frontend"; "backend"])
                             None None None "" in
  let partial := mk_instance (Some (mk_view "ReadyRole" "10.0.0.4" []))
                             (mk_vnet "" ["frontend"]) None None None "" in
  let bare := mk_instance None (mk_vnet "" []) None None None "" in
  let fetch := ECall (RGet "vm-1" [("$expand", "instanceView")]) None in
  getNics (mk_region (fetched, None) no_eips None None) (start bare)
  = (Ret ([{| nic_ID := "vnet-1/frontend"; nic_IP := "10.0.0.9" |}], None),
     emit fetch (start bare))
  /\ getNics (mk_region (partial, None) no_eips None None) (start bare)
     = (Ret ([{| nic_ID := "vnet-1/frontend"; nic_IP := "10.0.0.4" |}], None),
        emit fetch (start bare))
  /\ getNics (mk_region (bare, None) no_eips None None) (start bare)
     = (Ret ([], None), emit fetch (start bare)).
Proof.
  intros fetched partial bare fetch. split; [|split].
  - exact (getNics_precedence (mk_region (fetched, None) no_eips None None)
             (start bare) fetched eq_refl).
  - exact (getNics_precedence (mk_region (partial, None) no_eips None None)
             (start bare) partial eq_refl).
  - exact (getNics_precedence (mk_region (bare, None) no_eips None None)
             (start bare) bare eq_refl).
Defined.

(** ** Lazy refresh of the instance view *)

(** C4: when the instance view is absent, [GetStatus] makes exactly one
    refresh attempt (one fetch of the instance), whatever the outcome; a
    failed refresh, be it the fetch or the update of the record, gives the
    regular value Unknown after one log line; a refresh that leaves the raw
    status "ReadyRole" gives Running.  When the view is present, [GetStatus]
    makes no remote call and leaves the record alone. *)
Theorem GetStatus_refreshes_once :
  forall (region : SRegion) (upd : SClassicInstance -> SClassicInstance ->
                                   SClassicInstance * option error)
         (m : Machine),
    let fetch := RGet (ID (self m)) expand_instanceView in
    let answer := get_instance region (trace m) (ID (self m)) expand_instanceView in
    (InstanceView (Properties (self m)) = None ->
       (forall out m', GetStatus region upd m = (out, m') ->
          calls (trace m') = calls (trace m) ++ [fetch])
       /\ (forall e, answer.2 = Some e ->
             GetStatus region upd m =
             (Ret VM_UNKNOWN,
              emit (ELog ("failed to get status for classic instance " +:+ Name (self m)))
                   (emit (ECall fetch (Some e)) m)))
       /\ (forall s' e, answer.2 = None -> upd (self m) answer.1 = (s', Some e) ->
             GetStatus region upd m =
             (Ret VM_UNKNOWN,
              {| self := s';
                 trace := trace m ++ [ECall fetch None;
                            ELog ("failed to get status for classic instance "
                                  +:+ Name s')] |}))
       /\ (forall s' view, answer.2 = None -> upd (self m) answer.1 = (s', None) ->
             InstanceView (Properties s') = Some view ->
             Status view = "ReadyRole" ->
             GetStatus region upd m =
             (Ret VM_RUNNING, {| self := s'; trace := trace m ++ [ECall fetch None] |})))
    /\ (forall view, InstanceView (Properties (self m)) = Some view ->
          forall out m', GetStatus region upd m = (out, m') ->
            calls (trace m') = calls (trace m) /\ self m' = self m).
Proof.
  intros region upd m fetch answer. subst fetch.
  split.
  - intros Hnil. unfold GetStatus, Refresh, GetClassicInstance. mrun.
    rewrite Hnil. fold answer.
    destruct answer as [instance [e|]] eqn:Hans; simpl.
    + split; [|split; [|split]].
      * intros out m' H. inversion H; subst; clear H. simpl.
        rewrite <- !app_assoc, calls_app. reflexivity.
      * intros e' He'. inversion He'; subst. unfold emit. simpl.
        now rewrite <- !app_assoc.
      * intros s' e' He'. discriminate.
      * intros s' view He'. discriminate.
    + destruct (upd (self m) instance) as [s1 [ue|]] eqn:Hupd; simpl.
      * split; [|split; [|split]].
        -- intros out m' H. inversion H; subst; clear H. simpl.
           rewrite <- !app_assoc, calls_app. reflexivity.
        -- intros e' He'. discriminate.
        -- intros s' e' _ He'. inversion He'; subst.
           unfold emit. simpl. now rewrite <- !app_assoc.
        -- intros s' view _ He'. discriminate.
      * split; [|split; [|split]].
        -- intros out m' H.
           destruct (InstanceView (Properties s1)) as [view|]; simpl in H.
           ++ repeat (destruct (String.eqb (Status view) _); simpl in H);
                inversion H; subst; clear H; simpl;
                rewrite ?calls_app; simpl; rewrite ?app_nil_r; reflexivity.
           ++ inversion H; subst; clear H; simpl. now rewrite calls_app.
        -- intros e' He'. discriminate.
        -- intros s' e' _ He'. discriminate.
        -- intros s' view _ He' Hview Hst. inversion He'; subst.
           rewrite Hview, Hst. reflexivity.
  - intros view Hview out m' H.
    unfold GetStatus in H. mrun_in H. rewrite Hview in H. simpl in H.
    rewrite Hview in H.
    repeat (destruct (String.eqb (Status view) _); simpl in H);
      inversion H; subst; clear H; simpl;
      rewrite ?calls_app; simpl; rewrite ?app_nil_r; split; reflexivity.
Qed.

Lemma GetStatus_refreshes_once_witness :
  let bare := mk_instance None (mk_vnet "" []) None None None "" in
  let fresh := mk_instance (Some (mk_view "ReadyRole" "10.0.0.4" [])) (mk_vnet "" [])
                           None None None "" in
  let fetch := RGet "vm-1" [("$expand", "instanceView")] in
  GetStatus (mk_region (fresh, None) no_eips None None) overwrite_Update (start bare)
  = (Ret "running", {| self := fresh; trace := [ECall fetch None] |})
  /\ GetStatus (mk_region (bare, Some (ErrRemote "503")) no_eips None None)
               overwrite_Update (start bare)
     = (Ret "unknown",
        {| self := bare;
           trace := [ECall fetch (Some (ErrRemote "503"));
                     ELog "failed to get status for classic instance web"] |}).
Proof.
  intros bare fresh fetch. split.
  - destruct (GetStatus_refreshes_once (mk_region (fresh, None) no_eips None None)
                overwrite_Update (start bare)) as [Hnil _].
    destruct (Hnil eq_refl) as (_ & _ & _ & Hok).
    exact (Hok fresh (mk_view "ReadyRole" "10.0.0.4" []) eq_refl eq_refl eq_refl eq_refl).
  - destruct (GetStatus_refreshes_once
                (mk_region (bare, Some (ErrRemote "503")) no_eips None None)
                overwrite_Update (start bare)) as [Hnil _].
    destruct (Hnil eq_refl) as (_ & Hfail & _).
    exact (Hfail (ErrRemote "503") eq_refl).
Defined.

(** ** Lifecycle operations *)



(** ** External address *)

(** One turn of the scan when the lookup of the candidate fails: the failure
    is logged and the scan goes on with the remaining candidates. *)
Lemma GetIEIP_loop_lookup_failed region reserveIp rest m e :
  GetClassicEip region (trace m) (sr_ID reserveIp) = inl e ->
  GetIEIP_loop region (reserveIp :: rest) m =
  GetIEIP_loop region rest
    (emit (ELog ("failed find eip " +:+ sr_Name reserveIp
                 +:+ " for classic instance " +:+ Name (self m)))
          (emit (ECall (RGetClassicEip (sr_ID reserveIp)) (Some e)) m)).
Proof.
  intros Hfetch. simpl. mrun. rewrite Hfetch. simpl.
  destruct (GetIEIP_loop region rest _) as [[a|msg] m2]; reflexivity.
Qed.

(** One turn of the scan when the lookup succeeds: the scan ends there, with
    nothing if the reserved IP is held by another instance and with the
    reserved IP otherwise. *)
Lemma GetIEIP_loop_lookup_ok region reserveIp rest m eip :
  GetClassicEip region (trace m) (sr_ID reserveIp) = inr eip ->
  GetIEIP_loop region (reserveIp :: rest) m =
  (Ret (Some (if attached_elsewhere (ID (self m)) eip then None
              else Some (claimed_by (ID (self m)) eip), None)),
   emit (ECall (RGetClassicEip (sr_ID reserveIp)) None) m).
Proof.
  intros Hfetch. simpl. mrun. rewrite Hfetch. simpl.
  unfold attached_elsewhere, claimed_by.
  destruct (AttachedTo (eip_Properties eip)) as [a|]; [|reflexivity].
  destruct (String.eqb (sr_ID a) (ID (self m))); reflexivity.
Qed.

(** [GetIEIP] is the scan over the reserved IPs followed, when the scan ran
    to its end, by the public-IP fallback. *)
Lemma GetIEIP_unfold region m :
  GetIEIP region m =
  match GetIEIP_loop region (reserved_candidates (self m)) m with
  | (Ret (Some r), m') => (Ret r, m')
  | (Ret None, m') => (Ret (public_ip_fallback (self m), None), m')
  | (Panic msg, m') => (Panic msg, m')
  end.
Proof.
  unfold GetIEIP, reserved_candidates, public_ip_fallback. mrun.
  destruct (ReservedIps (NetworkProfile (Properties (self m)))) as [[|r rs]|]; simpl.
  - destruct (InstanceView (Properties (self m))) as [view|]; [|reflexivity].
    destruct (PublicIpAddresses view); reflexivity.
  - mrun.
    destruct (GetClassicEip region (trace m) (sr_ID r)) as [e|eip]; simpl.
    + destruct (GetIEIP_loop region rs _) as [[[a|]|msg] m2]; try reflexivity.
      destruct (InstanceView (Properties (self m))) as [view|]; [|reflexivity].
      destruct (PublicIpAddresses view); reflexivity.
    + destruct (AttachedTo (eip_Properties eip)) as [a|]; [|reflexivity].
      destruct (String.eqb (sr_ID a) (ID (self m))); reflexivity.
  - destruct (InstanceView (Properties (self m))) as [view|]; [|reflexivity].
    destruct (PublicIpAddresses view); reflexivity.
Qed.

(** What a finished scan tells: it never panics and never touches the
    record; either it ran to the end, and then every candidate was looked up
    and every lookup failed, or some candidate was fetched and decided. *)
Lemma GetIEIP_loop_inv region rs :
  forall m out m',
    GetIEIP_loop region rs m = (out, m') ->
    self m' = self m /\
    exists evs, trace m' = trace m ++ evs /\
      ((out = Ret None /\ length (failures evs) = length rs
        /\ length (calls evs) = length rs)
       \/ (exists r eip t, r ∈ rs /\ GetClassicEip region t (sr_ID r) = inr eip /\
             out = Ret (Some (if attached_elsewhere (ID (self m)) eip then None
                              else Some (claimed_by (ID (self m)) eip), None)))).
Proof.
  induction rs as [|r rest IH]; intros m out m' H.
  - inversion H; subst. split; [reflexivity|].
    exists []. rewrite app_nil_r. split; [reflexivity|]. left. auto.
  - destruct (GetClassicEip region (trace m) (sr_ID r)) as [e|eip] eqn:Hfetch.
    + rewrite (GetIEIP_loop_lookup_failed _ _ _ _ _ Hfetch) in H.
      apply IH in H. destruct H as [Hself (evs & Htr & Hcases)].
      split; [exact Hself|].
      eexists. split.
      { rewrite Htr. simpl. rewrite <- !app_assoc. reflexivity. }
      destruct Hcases as [(Hout & Hf & Hc)|(r' & eip & t & Hin & Hok & Hout)].
      * left. split; [exact Hout|]. simpl. rewrite Hf, Hc. auto.
      * right. exists r', eip, t. split; [now apply list_elem_of_further|].
        split; [exact Hok|exact Hout].
    + rewrite (GetIEIP_loop_lookup_ok _ _ _ _ _ Hfetch) in H.
      inversion H; subst; clear H. split; [reflexivity|].
      eexists. split; [reflexivity|].
      right. exists r, eip, (trace m). split; [apply list_elem_of_here|]. auto.
Qed.

(** When every candidate of a first part of the list fails, the scan of the
    whole list is the scan of the remaining part, taken up at the trace that
    these failures leave. *)
Lemma GetIEIP_loop_skip region pre :
  forall m suffix evs,
    failed_scan region (Name (self m)) (trace m) pre = Some evs ->
    GetIEIP_loop region (pre ++ suffix) m =
    GetIEIP_loop region suffix {| self := self m; trace := trace m ++ evs |}.
Proof.
  induction pre as [|r pre IH]; intros m suffix evs Hscan.
  - inversion Hscan; subst. rewrite app_nil_r. destruct m; reflexivity.
  - simpl in Hscan.
    destruct (GetClassicEip region (trace m) (sr_ID r)) as [e|eip] eqn:Hfetch;
      [|discriminate Hscan].
    destruct (failed_scan region (Name (self m))
                (trace m ++ failed_lookup_events (Name (self m)) r e) pre)
      as [more|] eqn:Hmore; [|discriminate Hscan].
    inversion Hscan; subst; clear Hscan.
    change ((r :: pre) ++ suffix) with (r :: (pre ++ suffix)).
    rewrite (GetIEIP_loop_lookup_failed _ _ _ _ _ Hfetch).
    rewrite (IH _ suffix more).
    + simpl. unfold failed_lookup_events, eip_lookup.
      rewrite <- !app_assoc. reflexivity.
    + simpl. unfold failed_lookup_events, eip_lookup in Hmore.
      rewrite <- !app_assoc. exact Hmore.
Qed.

(** A scan that does not fail throughout stops at a first candidate whose
    lookup succeeds, all the ones before it having failed. *)
Lemma failed_scan_stops region name rs :
  forall t,
    failed_scan region name t rs = None ->
    exists pre r rest evs eip,
      rs = pre ++ r :: rest
      /\ failed_scan region name t pre = Some evs
      /\ GetClassicEip region (t ++ evs) (sr_ID r) = inr eip.
Proof.
  induction rs as [|r rs IH]; intros t Hscan; [discriminate Hscan|].
  simpl in Hscan.
  destruct (GetClassicEip region t (sr_ID r)) as [e|eip] eqn:Hfetch.
  - destruct (failed_scan region name (t ++ failed_lookup_events name r e) rs)
      as [more|] eqn:Hmore; [discriminate Hscan|].
    destruct (IH _ Hmore) as (pre & r' & rest & evs & eip & -> & Hpre & Hok).
    exists (r :: pre), r', rest, (failed_lookup_events name r e ++ evs), eip.
    split; [reflexivity|]. split.
    + simpl. now rewrite Hfetch, Hpre.
    + rewrite app_assoc. exact Hok.
  - exists [], r, rs, [], eip. rewrite app_nil_r. auto.
Qed.

(** One more failed lookup extends a scan that failed throughout. *)
Lemma failed_scan_snoc region name pre :
  forall t evs r e,
    failed_scan region name t pre = Some evs ->
    GetClassicEip region (t ++ evs) (sr_ID r) = inl e ->
    failed_scan region name t (pre ++ [r]) = Some (evs ++ failed_lookup_events name r e).
Proof.
  induction pre as [|p pre IH]; intros t evs r e Hscan Hfetch.
  - inversion Hscan; subst. rewrite app_nil_r in Hfetch. simpl.
    rewrite Hfetch. reflexivity.
  - simpl in Hscan. simpl.
    destruct (GetClassicEip region t (sr_ID p)) as [e0|eip]; [|discriminate Hscan].
    destruct (failed_scan region name (t ++ failed_lookup_events name p e0) pre)
      as [more|] eqn:Hmore; [|discriminate Hscan].
    inversion Hscan; subst; clear Hscan.
    rewrite (IH _ more r e Hmore).
    + simpl. reflexivity.
    + rewrite <- app_assoc. exact Hfetch.
Qed.

(** The run of [GetIEIP] when the first lookup that succeeds is that of the
    candidate [r]. *)
Lemma GetIEIP_decided region m pre r rest evs eip :
  reserved_candidates (self m) = pre ++ r :: rest ->
  failed_scan region (Name (self m)) (trace m) pre = Some evs ->
  GetClassicEip region (trace m ++ evs) (sr_ID r) = inr eip ->
  GetIEIP region m =
  (Ret (if attached_elsewhere (ID (self m)) eip then None
        else Some (claimed_by (ID (self m)) eip), None),
   {| self := self m; trace := trace m ++ evs ++ [ECall (eip_lookup r) None] |}).
Proof.
  intros Hrs Hscan Hfetch.
  rewrite GetIEIP_unfold, Hrs, (GetIEIP_loop_skip _ _ _ _ _ Hscan).
  rewrite (GetIEIP_loop_lookup_ok region r rest
             {| self := self m; trace := trace m ++ evs |} eip Hfetch).
  unfold emit, eip_lookup. simpl. now rewrite <- app_assoc.
Qed.

(** The run of [GetIEIP] when the lookup of every candidate fails. *)
Lemma GetIEIP_exhausted region m evs :
  failed_scan region (Name (self m)) (trace m) (reserved_candidates (self m)) = Some evs ->
  GetIEIP region m =
  (Ret (public_ip_fallback (self m), None),
   {| self := self m; trace := trace m ++ evs |}).
Proof.
  intros Hscan. rewrite GetIEIP_unfold.
  rewrite <- (app_nil_r (reserved_candidates (self m))) at 1.
  now rewrite (GetIEIP_loop_skip _ _ _ _ _ Hscan).
Qed.

(** C3, as stated, fails: with the reserved IPs "rip-1" (moved to "vm-2") and
    "rip-2" (held by this instance), [GetIEIP] looks up "rip-1" and answers
    "none" at once; "rip-2", which the scan would have accepted, is never
    looked up. *)
Lemma GetIEIP_reassigned_not_skipped :
  GetIEIP moved_region (start two_reserved)
  = (Ret (None, None), emit (ECall (RGetClassicEip "rip-1") None) (start two_reserved))
  /\ GetIEIP_loop moved_region [mk_sub "rip-2" "second"]
                  (emit (ECall (RGetClassicEip "rip-1") None) (start two_reserved))
     = (Ret (Some (Some (claimed_by "vm-1" (mk_eip "rip-2" (Some (mk_sub "vm-1" "web")))),
                   None)),
        emit (ECall (RGetClassicEip "rip-2") None)
             (emit (ECall (RGetClassicEip "rip-1") None) (start two_reserved)))
  /\ ~ skips_reassigned moved_region.
Proof.
  split; [reflexivity|]. split; [reflexivity|].
  intros H.
  specialize (H (start two_reserved) (mk_sub "rip-1" "first") [mk_sub "rip-2" "second"]
                (mk_eip "rip-1" (Some (mk_sub "vm-2" "batch"))) eq_refl eq_refl).
  vm_compute in H. discriminate H.
Qed.

(** C3, amended: the reserved IPs are looked up in list order.  The first one
    that is fetched decides: if it is attached to another instance the
    resolution ends with "none" at once, later candidates and the public IPs
    being left alone; if its attachment is absent, or names this instance, it
    is returned, marked with this instance's ID.  When no reserved IP is
    fetched, the lookup of every candidate having failed, the result is the
    address synthesized from the first public IP of the instance view; when
    all sources are empty the result is "none", without error and without
    any remote call. *)
Theorem GetIEIP_resolution :
  forall (region : SRegion) (m : Machine),
    let s := self m in
    let candidates := reserved_candidates s in
    (forall pre reserveIp rest evs eip,
        candidates = pre ++ reserveIp :: rest ->
        failed_scan region (Name s) (trace m) pre = Some evs ->
        GetClassicEip region (trace m ++ evs) (sr_ID reserveIp) = inr eip ->
        attached_elsewhere (ID s) eip = true ->
        GetIEIP region m =
        (Ret (None, None),
         {| self := s; trace := trace m ++ evs ++ [ECall (eip_lookup reserveIp) None] |}))
    /\ (forall pre reserveIp rest evs eip,
          candidates = pre ++ reserveIp :: rest ->
          failed_scan region (Name s) (trace m) pre = Some evs ->
          GetClassicEip region (trace m ++ evs) (sr_ID reserveIp) = inr eip ->
          AttachedTo (eip_Properties eip) = None
          \/ (exists a, AttachedTo (eip_Properties eip) = Some a /\ sr_ID a = ID s) ->
          GetIEIP region m =
          (Ret (Some (claimed_by (ID s) eip), None),
           {| self := s;
              trace := trace m ++ evs ++ [ECall (eip_lookup reserveIp) None] |}))
    /\ (forall evs,
          failed_scan region (Name s) (trace m) candidates = Some evs ->
          GetIEIP region m =
          (Ret (public_ip_fallback s, None), {| self := s; trace := trace m ++ evs |}))
    /\ (forall evs view addr0 others,
          failed_scan region (Name s) (trace m) candidates = Some evs ->
          InstanceView (Properties s) = Some view ->
          PublicIpAddresses view = addr0 :: others ->
          GetIEIP region m =
          (Ret (Some (synthesized_eip (ID s) addr0), None),
           {| self := s; trace := trace m ++ evs |}))
    /\ (candidates = [] -> public_ip_fallback s = None ->
        GetIEIP region m = (Ret (None, None), m)).
Proof.
  intros region m s candidates. subst s candidates.
  split; [|split; [|split; [|split]]].
  - intros pre r rest evs eip Hrs Hscan Hfetch Hels.
    rewrite (GetIEIP_decided _ _ _ _ _ _ _ Hrs Hscan Hfetch), Hels. reflexivity.
  - intros pre r rest evs eip Hrs Hscan Hfetch Hown.
    rewrite (GetIEIP_decided _ _ _ _ _ _ _ Hrs Hscan Hfetch).
    assert (attached_elsewhere (ID (self m)) eip = false) as ->; [|reflexivity].
    unfold attached_elsewhere.
    destruct Hown as [->|(a & -> & ->)]; [reflexivity|].
    now rewrite String.eqb_refl.
  - intros evs Hscan. now apply GetIEIP_exhausted.
  - intros evs view addr0 others Hscan Hview Hpub.
    rewrite (GetIEIP_exhausted _ _ _ Hscan).
    unfold public_ip_fallback. now rewrite Hview, Hpub.
  - intros Hnone Hpub. rewrite GetIEIP_unfold, Hnone, Hpub. reflexivity.
Qed.

Lemma GetIEIP_resolution_witness :
  let lost := mk_instance (Some (mk_view "ReadyRole" "" ["40.1.1.1"; "40.1.1.2"]))
                          (mk_vnet "" [])
                          (Some [mk_sub "rip-0" "gone"; mk_sub "rip-7" "stale"])
                          None None "" in
  let free := mk_instance (Some (mk_view "ReadyRole" "" ["40.1.1.1"]))
                          (mk_vnet "" []) (Some [mk_sub "rip-9" "spare"]) None None "" in
  let spare := mk_eip "rip-9" None in
  let region := mk_region (free, None) (lookup_eips {[ "rip-9" := spare ]}) None None in
  let bare := mk_instance None (mk_vnet "" []) None None None "" in
  let missing := Some (ErrRemote "ResourceNotFound") in
  GetIEIP moved_region (start lost)
  = (Ret (Some (synthesized_eip "vm-1" "40.1.1.1"), None),
     {| self := lost;
        trace := [ECall (RGetClassicEip "rip-0") missing;
                  ELog "failed find eip gone for classic instance web";
                  ECall (RGetClassicEip "rip-7") missing;
                  ELog "failed find eip stale for classic instance web"] |})
  /\ GetIEIP moved_region (start three_reserved_and_public)
     = (Ret (None, None),
        {| self := three_reserved_and_public;
           trace := [ECall (RGetClassicEip "rip-0") missing;
                     ELog "failed find eip gone for classic instance web";
                     ECall (RGetClassicEip "rip-1") None] |})
  /\ GetIEIP region (start free)
     = (Ret (Some (claimed_by "vm-1" spare), None),
        {| self := free; trace := [ECall (RGetClassicEip "rip-9") None] |})
  /\ GetIEIP moved_region (start bare) = (Ret (None, None), start bare).
Proof.
  intros lost free spare region bare missing. split; [|split; [|split]].
  - destruct (GetIEIP_resolution moved_region (start lost)) as (_ & _ & _ & Hpublic & _).
    exact (Hpublic _ (mk_view "ReadyRole" "" ["40.1.1.1"; "40.1.1.2"]) "40.1.1.1"
                   ["40.1.1.2"] eq_refl eq_refl eq_refl).
  - destruct (GetIEIP_resolution moved_region (start three_reserved_and_public))
      as (Hmoved & _).
    exact (Hmoved [mk_sub "rip-0" "gone"] (mk_sub "rip-1" "first")
                  [mk_sub "rip-2" "second"] _
                  (mk_eip "rip-1" (Some (mk_sub "vm-2" "batch")))
                  eq_refl eq_refl eq_refl eq_refl).
  - destruct (GetIEIP_resolution region (start free)) as (_ & Hfree & _).
    exact (Hfree [] (mk_sub "rip-9" "spare") [] [] spare eq_refl eq_refl eq_refl
                 (or_introl eq_refl)).
  - destruct (GetIEIP_resolution moved_region (start bare)) as (_ & _ & _ & _ & Hempty).
    exact (Hempty eq_refl eq_refl).
Defined.

(** C8, as stated, fails in its "only": with the reserved IPs "rip-0" (lookup
    fails), "rip-1" (moved to "vm-2") and "rip-2", and a public IP in the
    instance view, the failed lookup is logged and passed over, and then
    "rip-1" makes [GetIEIP] answer "none" although one candidate and the
    public-IP fallback are still untried. *)
Lemma GetIEIP_none_without_exhaustion :
  GetIEIP moved_region (start three_reserved_and_public)
  = (Ret (None, None),
     {| self := three_reserved_and_public;
        trace := [ECall (RGetClassicEip "rip-0") (Some (ErrRemote "ResourceNotFound"));
                  ELog "failed find eip gone for classic instance web";
                  ECall (RGetClassicEip "rip-1") None] |})
  /\ public_ip_fallback three_reserved_and_public
     = Some (synthesized_eip "vm-1" "40.1.1.1")
  /\ ~ none_only_by_exhaustion moved_region.
Proof.
  split; [reflexivity|]. split; [reflexivity|].
  intros H.
  destruct (H (start three_reserved_and_public) None
              {| self := three_reserved_and_public;
                 trace := [ECall (RGetClassicEip "rip-0")
                                 (Some (ErrRemote "ResourceNotFound"));
                           ELog "failed find eip gone for classic instance web";
                           ECall (RGetClassicEip "rip-1") None] |}
              [ECall (RGetClassicEip "rip-0") (Some (ErrRemote "ResourceNotFound"));
               ELog "failed find eip gone for classic instance web";
               ECall (RGetClassicEip "rip-1") None]
              eq_refl eq_refl) as [Hcount _].
  vm_compute in Hcount. discriminate Hcount.
Qed.

(** C8, amended: a reserved-IP candidate whose lookup fails is logged and
    passed over: the error is not returned, and the next candidate is looked
    up right after the log line, or, when none is left, the public-IP
    fallback decides.  [GetIEIP] always returns, and never with an error.  It
    answers "none" only when the lookup of every candidate has failed in
    this run and the public-IP fallback is empty, or when a candidate that
    was fetched in this run, after the failure of all the ones before it, is
    attached to another instance; that lookup is then the last event of the
    run. *)
Theorem GetIEIP_lookup_failures :
  forall (region : SRegion) (m : Machine),
    let s := self m in
    let candidates := reserved_candidates s in
    (forall pre reserveIp rest evs e,
        candidates = pre ++ reserveIp :: rest ->
        failed_scan region (Name s) (trace m) pre = Some evs ->
        GetClassicEip region (trace m ++ evs) (sr_ID reserveIp) = inl e ->
        let failed := failed_lookup_events (Name s) reserveIp e in
        exists found m' more,
          GetIEIP region m = (Ret (found, None), m')
          /\ trace m' = trace m ++ evs ++ failed ++ more
          /\ match rest with
             | [] => more = [] /\ found = public_ip_fallback s
             | next :: _ =>
               exists more',
                 more = ECall (eip_lookup next)
                              (sum_err (GetClassicEip region (trace m ++ evs ++ failed)
                                                      (sr_ID next))) :: more'
             end)
    /\ (exists found m', GetIEIP region m = (Ret (found, None), m'))
    /\ (forall err m',
          GetIEIP region m = (Ret (None, err), m') ->
          (exists evs,
              failed_scan region (Name s) (trace m) candidates = Some evs
              /\ trace m' = trace m ++ evs
              /\ public_ip_fallback s = None)
          \/ (exists pre reserveIp rest evs eip,
                candidates = pre ++ reserveIp :: rest
                /\ failed_scan region (Name s) (trace m) pre = Some evs
                /\ GetClassicEip region (trace m ++ evs) (sr_ID reserveIp) = inr eip
                /\ attached_elsewhere (ID s) eip = true
                /\ trace m' = trace m ++ evs ++ [ECall (eip_lookup reserveIp) None])).
Proof.
  intros region m s candidates. subst s candidates.
  split; [|split].
  - intros pre r rest evs e Hrs Hscan Hfetch failed. subst failed.
    pose proof (failed_scan_snoc _ _ _ _ _ _ _ Hscan Hfetch) as Hsnoc.
    rewrite GetIEIP_unfold, Hrs.
    change (pre ++ r :: rest) with (pre ++ [r] ++ rest). rewrite app_assoc.
    rewrite (GetIEIP_loop_skip _ _ _ _ _ Hsnoc).
    destruct rest as [|next rest].
    + do 2 eexists. exists []. split; [reflexivity|]. simpl. auto.
    + destruct (GetClassicEip region
                  (trace m ++ evs ++ failed_lookup_events (Name (self m)) r e)
                  (sr_ID next)) as [e'|eip] eqn:Hnext.
      * rewrite (GetIEIP_loop_lookup_failed region next rest
                   {| self := self m;
                      trace := trace m ++ evs
                               ++ failed_lookup_events (Name (self m)) r e |} e' Hnext).
        match goal with
        | |- context [GetIEIP_loop region rest ?m2] =>
          destruct (GetIEIP_loop region rest m2) as [out m'] eqn:Hloop
        end.
        destruct (GetIEIP_loop_inv _ _ _ _ _ Hloop)
          as (_ & evs2 & Htr & [(-> & _)|(r2 & eip2 & t2 & _ & _ & ->)]);
          do 2 eexists; eexists (_ :: _);
          (split; [reflexivity|]); simpl in *; rewrite Htr;
          (split; [rewrite <- !app_assoc; reflexivity|]); eauto.
      * rewrite (GetIEIP_loop_lookup_ok region next rest
                   {| self := self m;
                      trace := trace m ++ evs
                               ++ failed_lookup_events (Name (self m)) r e |} eip Hnext).
        do 2 eexists. exists [ECall (eip_lookup next) None].
        split; [reflexivity|]. simpl.
        split; [rewrite <- !app_assoc; reflexivity|]. eauto.
  - destruct (failed_scan region (Name (self m)) (trace m)
                (reserved_candidates (self m))) as [evs|] eqn:Hscan.
    + rewrite (GetIEIP_exhausted _ _ _ Hscan). eauto.
    + destruct (failed_scan_stops _ _ _ _ Hscan)
        as (pre & r & rest & evs & eip & Hrs & Hpre & Hok).
      rewrite (GetIEIP_decided _ _ _ _ _ _ _ Hrs Hpre Hok). eauto.
  - intros err m' Hrun.
    destruct (failed_scan region (Name (self m)) (trace m)
                (reserved_candidates (self m))) as [evs|] eqn:Hscan.
    + rewrite (GetIEIP_exhausted _ _ _ Hscan) in Hrun.
      inversion Hrun; subst; clear Hrun. left. exists evs. auto.
    + destruct (failed_scan_stops _ _ _ _ Hscan)
        as (pre & r & rest & evs & eip & Hrs & Hpre & Hok).
      rewrite (GetIEIP_decided _ _ _ _ _ _ _ Hrs Hpre Hok) in Hrun.
      right. exists pre, r, rest, evs, eip.
      destruct (attached_elsewhere (ID (self m)) eip);
        inversion Hrun; subst; clear Hrun. auto 10.
Qed.

Lemma GetIEIP_lookup_failures_witness :
  let lost := mk_instance (Some (mk_view "ReadyRole" "" ["40.1.1.1"])) (mk_vnet "" [])
                          (Some [mk_sub "rip-0" "gone"; mk_sub "rip-7" "stale"])
                          None None "" in
  let missing := ErrRemote "ResourceNotFound" in
  (exists found m' more,
      GetIEIP moved_region (start lost) = (Ret (found, None), m')
      /\ trace m' = [] ++ [] ++ failed_lookup_events "web" (mk_sub "rip-0" "gone") missing
                    ++ more
      /\ exists more', more = ECall (RGetClassicEip "rip-7") (Some missing) :: more')
  /\ (exists pre reserveIp rest evs eip,
        reserved_candidates three_reserved_and_public = pre ++ reserveIp :: rest
        /\ failed_scan moved_region "web" [] pre = Some evs
        /\ GetClassicEip moved_region ([] ++ evs) (sr_ID reserveIp) = inr eip
        /\ attached_elsewhere "vm-1" eip = true
        /\ [ECall (RGetClassicEip "rip-0") (Some missing);
            ELog "failed find eip gone for classic instance web";
            ECall (RGetClassicEip "rip-1") None]
           = [] ++ evs ++ [ECall (eip_lookup reserveIp) None]).
Proof.
  intros lost missing. split.
  - destruct (GetIEIP_lookup_failures moved_region (start lost)) as (Hskip & _).
    exact (Hskip [] (mk_sub "rip-0" "gone") [mk_sub "rip-7" "stale"] [] missing
                 eq_refl eq_refl eq_refl).
  - destruct (GetIEIP_lookup_failures moved_region (start three_reserved_and_public))
      as (_ & _ & Hnone).
    destruct (Hnone None
                {| self := three_reserved_and_public;
                   trace := [ECall (RGetClassicEip "rip-0") (Some missing);
                             ELog "failed find eip gone for classic instance web";
                             ECall (RGetClassicEip "rip-1") None] |}
                eq_refl) as [(evs & Hscan & _)|Hmoved].
    + vm_compute in Hscan. discriminate Hscan.
    + exact Hmoved.
Defined.

(** ** Propagation of remote errors *)



(** A fetch that succeeds makes [getNics] return without error after that
    one call. *)
Lemma getNics_fetched region m instance :
  get_instance region (trace m) (ID (self m)) expand_instanceView = (instance, None) ->
  exists nics,
    getNics region m =
    (Ret (nics, None), emit (ECall (RGet (ID (self m)) expand_instanceView) None) m).
Proof.
  intros Hfetch. unfold getNics, GetClassicInstance. mrun. rewrite Hfetch. simpl.
  destruct (SubnetNames (VirtualNetwork (NetworkProfile (Properties instance))));
    destruct (nonempty (StaticIpAddress
                          (VirtualNetwork (NetworkProfile (Properties instance)))));
    destruct (InstanceView (Properties instance)) as [view|]; simpl;
    try destruct (nonempty (PrivateIpAddress view)); simpl;
    repeat match goal with
           | |- context [if ?b then _ else _] => destruct b; simpl
           end;
    eauto.
Qed.

Lemma getNics_fetch_failed region m instance e :
  get_instance region (trace m) (ID (self m)) expand_instanceView = (instance, Some e) ->
  getNics region m =
  (Ret ([], Some e), emit (ECall (RGet (ID (self m)) expand_instanceView) (Some e)) m).
Proof.
  intros Hfetch. unfold getNics, GetClassicInstance. mrun. now rewrite Hfetch.
Qed.






(** ** Further properties of the status accessor *)

(** All the runs of [GetStatus], one goal per path through the code. *)
Ltac GetStatus_runs H region upd m :=
  unfold GetStatus, Refresh, GetClassicInstance in H; mrun_in H;
  destruct (InstanceView (Properties (self m))) as [?view|] eqn:?Hview; simpl in H;
  [ | destruct (get_instance region (trace m) (ID (self m)) expand_instanceView)
        as [?instance [?e|]] eqn:?Hfetch; simpl in H;
      [ | destruct (upd (self m) instance) as [?s [?ue|]] eqn:?Hupd; simpl in H;
          [ | destruct (InstanceView (Properties s)) as [?view|] eqn:?Hview;
              simpl in H ] ] ];
  repeat match goal with
         | Hv : InstanceView _ = _ |- _ => rewrite Hv in H; simpl in H
         end;
  repeat match type of H with
         | context [String.eqb ?a ?b] => destruct (String.eqb a b) eqn:?; simpl in H
         end;
  inversion H; subst; clear H.

(** X1: whatever the remote side answers, a status returned by [GetStatus] is
    one of the three normalized ones. *)
Theorem GetStatus_range :
  forall (region : SRegion) (upd : SClassicInstance -> SClassicInstance ->
                                   SClassicInstance * option error)
         (m : Machine) (st : string) (m' : Machine),
    GetStatus region upd m = (Ret st, m') ->
    st = VM_READY \/ st = VM_RUNNING \/ st = VM_UNKNOWN.
Proof.
  intros region upd m st m' H.
  GetStatus_runs H region upd m; auto.
Qed.

Lemma GetStatus_range_witness :
  let s := mk_instance (Some (mk_view "Provisioning" "" [])) (mk_vnet "" [])
                       None None None "" in
  "unknown" = VM_READY \/ "unknown" = VM_RUNNING \/ "unknown" = VM_UNKNOWN.
Proof.
  intros s.
  exact (GetStatus_range (mk_region (s, None) no_eips None None) overwrite_Update
           (start s) "unknown"
           (emit (ELog "Unknow classic instance web status Provisioning") (start s))
           eq_refl).
Defined.

(** X2: a run of [GetStatus] adds at most one remote call and at most one log
    line to the trace, and a result other than Unknown comes without any log
    line. *)
Theorem GetStatus_footprint :
  forall (region : SRegion) (upd : SClassicInstance -> SClassicInstance ->
                                   SClassicInstance * option error)
         (m : Machine) (out : Outcome string) (m' : Machine),
    GetStatus region upd m = (out, m') ->
    exists evs,
      trace m' = trace m ++ evs
      /\ (length (calls evs) <= 1)%nat
      /\ (length (log_lines evs) <= 1)%nat
      /\ (out = Ret VM_READY \/ out = Ret VM_RUNNING -> log_lines evs = []).
Proof.
  intros region upd m out m' H.
  GetStatus_runs H region upd m; simpl;
    first
      [ exists []; rewrite app_nil_r; split; [reflexivity|]; simpl;
        repeat split; auto with arith; fail
      | eexists; split; [rewrite <- ?app_assoc; reflexivity|]; simpl;
        repeat split; auto with arith;
        intros [Hout|Hout]; discriminate Hout ].
Qed.

Lemma GetStatus_footprint_witness :
  let s := mk_instance None (mk_vnet "" []) None None None "" in
  let region := mk_region (s, Some (ErrRemote "503")) no_eips None None in
  exists evs,
    [ECall (RGet "vm-1" [("$expand", "instanceView")]) (Some (ErrRemote "503"));
     ELog "failed to get status for classic instance web"] = [] ++ evs
    /\ (length (calls evs) <= 1)%nat
    /\ (length (log_lines evs) <= 1)%nat
    /\ (Ret "unknown" = Ret VM_READY \/ Ret "unknown" = Ret VM_RUNNING ->
        log_lines evs = []).
Proof.
  intros s region.
  exact (GetStatus_footprint region overwrite_Update (start s) (Ret "unknown")
           {| self := s;
              trace := [ECall (RGet "vm-1" [("$expand", "instanceView")])
                              (Some (ErrRemote "503"));
                        ELog "failed to get status for classic instance web"] |}
           eq_refl).
Defined.

(** X3: once the instance view is in the record, [GetStatus] is stable: a
    second call right after a first one returns the same status, again
    without any remote call and without touching the record. *)
Theorem GetStatus_stable :
  forall (region : SRegion) (upd : SClassicInstance -> SClassicInstance ->
                                   SClassicInstance * option error)
         (m : Machine) (view : ClassicVirtualMachineInstanceView)
         (st : string) (m1 : Machine),
    InstanceView (Properties (self m)) = Some view ->
    GetStatus region upd m = (Ret st, m1) ->
    exists m2,
      GetStatus region upd m1 = (Ret st, m2)
      /\ self m2 = self m
      /\ calls (trace m2) = calls (trace m).
Proof.
  intros region upd m view st m1 Hv H.
  assert (Hsame : self m1 = self m /\ calls (trace m1) = calls (trace m)).
  { pose proof H as H0. unfold GetStatus in H0. mrun_in H0.
    rewrite Hv in H0. simpl in H0. rewrite Hv in H0.
    repeat match type of H0 with
           | context [String.eqb ?a ?b] => destruct (String.eqb a b) eqn:?; simpl in H0
           end;
      inversion H0; subst; clear H0; simpl;
      rewrite ?calls_app; simpl; rewrite ?app_nil_r; auto. }
  destruct Hsame as [Hself Hcalls].
  assert (Hagain : exists m2, GetStatus region upd m1 = (Ret st, m2)
                              /\ self m2 = self m1
                              /\ calls (trace m2) = calls (trace m1)).
  { unfold GetStatus in *. mrun. mrun_in H.
    rewrite Hself, Hv. rewrite Hv in H. simpl. simpl in H.
    rewrite Hself, Hv. rewrite Hv in H.
    repeat match type of H with
           | context [String.eqb ?a ?b] => destruct (String.eqb a b) eqn:?; simpl in H
           end;
      inversion H; subst; clear H; simpl;
      eexists; (split; [reflexivity|]); simpl;
      rewrite ?calls_app; simpl; rewrite ?app_nil_r; auto. }
  destruct Hagain as (m2 & Hrun & Hself2 & Hcalls2).
  exists m2. rewrite Hself2, Hcalls2. auto.
Qed.

Lemma GetStatus_stable_witness :
  let s := mk_instance (Some (mk_view "Provisioning" "" [])) (mk_vnet "" [])
                       None None None "" in
  let region := mk_region (s, None) no_eips None None in
  let line := ELog "Unknow classic instance web status Provisioning" in
  exists m2,
    GetStatus region overwrite_Update (emit line (start s)) = (Ret "unknown", m2)
    /\ self m2 = s
    /\ calls (trace m2) = [].
Proof.
  intros s region line.
  exact (GetStatus_stable region overwrite_Update (start s)
           (mk_view "Provisioning" "" []) "unknown" (emit line (start s))
           eq_refl eq_refl).
Defined.

(** X4: when the view is absent and the refresh succeeds but the refreshed
    record still has no view, [GetStatus] panics on the nil view, after the
    one fetch and with the record already replaced; [AttachDisk] and
    [DetachDisk] then panic as well, before their action is issued. *)
Theorem GetStatus_panics_without_view :
  forall (region : SRegion) (upd : SClassicInstance -> SClassicInstance ->
                                   SClassicInstance * option error)
         (wait : string -> Z -> Z -> M (option error))
         (m : Machine) (instance s' : SClassicInstance) (diskId : string),
    InstanceView (Properties (self m)) = None ->
    get_instance region (trace m) (ID (self m)) expand_instanceView = (instance, None) ->
    upd (self m) instance = (s', None) ->
    InstanceView (Properties s') = None ->
    let m' := {| self := s';
                 trace := trace m ++ [ECall (RGet (ID (self m)) expand_instanceView)
                                            None] |} in
    GetStatus region upd m = (Panic nil_deref, m')
    /\ AttachDisk region upd wait diskId m = (Panic nil_deref, m')
    /\ DetachDisk region upd wait diskId m = (Panic nil_deref, m').
Proof.
  intros region upd wait m instance s' diskId Hnil Hfetch Hupd Hnil' m'.
  assert (Hpanic : GetStatus region upd m = (Panic nil_deref, m')).
  { unfold GetStatus, Refresh, GetClassicInstance. mrun.
    rewrite Hnil, Hfetch. simpl. rewrite Hupd. simpl. now rewrite Hnil'. }
  split; [exact Hpanic|].
  unfold AttachDisk, DetachDisk. mrun. now rewrite Hpanic.
Qed.

Lemma GetStatus_panics_without_view_witness :
  let bare := mk_instance None (mk_vnet "" []) None None None "" in
  let region := mk_region (bare, None) no_eips None None in
  let m' := {| self := bare;
               trace := [ECall (RGet "vm-1" [("$expand", "instanceView")]) None] |} in
  GetStatus region overwrite_Update (start bare) = (Panic nil_deref, m')
  /\ AttachDisk region overwrite_Update (poll_once region) "disk-7" (start bare)
     = (Panic nil_deref, m')
  /\ DetachDisk region overwrite_Update (poll_once region) "disk-7" (start bare)
     = (Panic nil_deref, m').
Proof.
  intros bare region m'.
  exact (GetStatus_panics_without_view region overwrite_Update (poll_once region)
           (start bare) bare bare "disk-7" eq_refl eq_refl eq_refl eq_refl).
Defined.

(** X5: when the view is absent and the fetch fails, [AttachDisk] and
    [DetachDisk] go on all the same: the action is issued after the log line,
    and on its success the polling primitive is asked to wait for Unknown. *)
Theorem disk_action_after_failed_refresh :
  forall (region : SRegion) (upd : SClassicInstance -> SClassicInstance ->
                                   SClassicInstance * option error)
         (wait : string -> Z -> Z -> M (option error))
         (m : Machine) (instance : SClassicInstance) (e : error) (diskId : string),
    InstanceView (Properties (self m)) = None ->
    get_instance region (trace m) (ID (self m)) expand_instanceView
    = (instance, Some e) ->
    let m0 := emit (ELog ("failed to get status for classic instance "
                          +:+ Name (self m)))
                   (emit (ECall (RGet (ID (self m)) expand_instanceView) (Some e)) m) in
    (let trigger := region_AttachDisk region (trace m0) (ID (self m)) diskId in
     let m1 := emit (ECall (RAttachDisk (ID (self m)) diskId) trigger) m0 in
     AttachDisk region upd wait diskId m =
     match trigger with
     | Some e' => (Ret (Some e'), m1)
     | None => wait VM_UNKNOWN (10 * Second) (300 * Second) m1
     end)
    /\ (let trigger := region_DetachDisk region (trace m0) (ID (self m)) diskId in
        let m1 := emit (ECall (RDetachDisk (ID (self m)) diskId) trigger) m0 in
        DetachDisk region upd wait diskId m =
        match trigger with
        | Some e' => (Ret (Some e'), m1)
        | None => wait VM_UNKNOWN (10 * Second) (300 * Second) m1
        end).
Proof.
  intros region upd wait m instance e diskId Hnil Hfetch m0.
  assert (Hst : GetStatus region upd m = (Ret VM_UNKNOWN, m0)).
  { unfold GetStatus, Refresh, GetClassicInstance. mrun.
    rewrite Hnil, Hfetch. reflexivity. }
  subst m0. split.
  - unfold AttachDisk. mrun. rewrite Hst. simpl.
    match goal with
    | |- context [region_AttachDisk ?r ?t ?i ?d] => destruct (region_AttachDisk r t i d)
    end; reflexivity.
  - unfold DetachDisk. mrun. rewrite Hst. simpl.
    match goal with
    | |- context [region_DetachDisk ?r ?t ?i ?d] => destruct (region_DetachDisk r t i d)
    end; reflexivity.
Qed.

Lemma disk_action_after_failed_refresh_witness :
  let bare := mk_instance None (mk_vnet "" []) None None None "" in
  let region := mk_region (bare, Some (ErrRemote "503")) no_eips None None in
  let m0 := {| self := bare;
               trace := [ECall (RGet "vm-1" [("$expand", "instanceView")])
                               (Some (ErrRemote "503"));
                         ELog "failed to get status for classic instance web"] |} in
  AttachDisk region overwrite_Update (fun expect _ _ => mret (Some (ErrRemote expect)))
             "disk-7" (start bare)
  = (Ret (Some (ErrRemote "unknown")),
     emit (ECall (RAttachDisk "vm-1" "disk-7") None) m0).
Proof.
  intros bare region m0.
  exact (proj1 (disk_action_after_failed_refresh region overwrite_Update
                  (fun expect _ _ => mret (Some (ErrRemote expect)))
                  (start bare) bare (ErrRemote "503") "disk-7" eq_refl eq_refl)).
Defined.

(** ** Further properties of the lifecycle operations *)

(** X6: [StopVM] does not look at the force flag: a forced and an unforced
    stop run identically, both performing the action "shutdown"; without
    options it panics before any remote call. *)
Theorem StopVM_ignores_force :
  forall (region : SRegion) (wait : string -> Z -> Z -> M (option error))
         (m : Machine) (opts opts' : ServerStopOptions),
    StopVM region wait (Some opts) m = StopVM region wait (Some opts') m
    /\ StopClassicVM region (ID (self m)) true m
       = StopClassicVM region (ID (self m)) false m
    /\ calls (trace (StopClassicVM region (ID (self m)) (IsForce opts) m).2)
       = calls (trace m) ++ [RPerform (ID (self m)) "shutdown"]
    /\ StopVM region wait None m = (Panic nil_deref, m).
Proof.
  intros region wait m opts opts'.
  split; [reflexivity|]. split; [reflexivity|]. split; [|reflexivity].
  unfold StopClassicVM. mrun. now rewrite calls_app.
Qed.

(** ** Further properties of the network interfaces *)

(** A fetch that succeeds yields at most one nic, and a nic that is yielded
    has both parts. *)
Lemma getNics_fetched_shape region m instance :
  get_instance region (trace m) (ID (self m)) expand_instanceView = (instance, None) ->
  exists nics,
    getNics region m =
    (Ret (nics, None), emit (ECall (RGet (ID (self m)) expand_instanceView) None) m)
    /\ (length nics <= 1)%nat
    /\ Forall well_formed_nic nics.
Proof.
  intros Hfetch. unfold getNics, GetClassicInstance. mrun. rewrite Hfetch. simpl.
  destruct (SubnetNames (VirtualNetwork (NetworkProfile (Properties instance))));
    destruct (nonempty (StaticIpAddress
                          (VirtualNetwork (NetworkProfile (Properties instance)))))
      eqn:Hstatic;
    destruct (InstanceView (Properties instance)) as [view|]; simpl;
    try destruct (nonempty (PrivateIpAddress view)) eqn:Hlive; simpl;
    repeat match goal with
           | |- context [if ?b then _ else _] => destruct b eqn:?; simpl
           end;
    eexists; (split; [reflexivity|]); (split; [simpl; lia|]);
    repeat constructor; simpl;
    repeat match goal with
           | H : (_ && _) = true |- _ => apply andb_prop in H; destruct H
           end;
    try assumption; try apply nonempty_path.
Qed.

Lemma GetINics_is_getNics region m : GetINics region m = getNics region m.
Proof.
  unfold GetINics. mrun.
  destruct (get_instance region (trace m) (ID (self m)) expand_instanceView)
    as [instance [e|]] eqn:Hfetch.
  - now rewrite (getNics_fetch_failed _ _ _ _ Hfetch).
  - destruct (getNics_fetched _ _ _ Hfetch) as [nics ->]. reflexivity.
Qed.

(** X7: [GetINics] always returns, after exactly one fetch of the instance
    and without touching the record; it reports the fetch error, if any, and
    then no nic; it never returns more than one nic, and a nic it returns has
    a non-empty ID and a non-empty IP. *)
Theorem GetINics_shape :
  forall (region : SRegion) (m : Machine),
    exists nics err,
      GetINics region m =
      (Ret (nics, err), emit (ECall (RGet (ID (self m)) expand_instanceView) err) m)
      /\ err = (get_instance region (trace m) (ID (self m)) expand_instanceView).2
      /\ (err <> None -> nics = [])
      /\ (length nics <= 1)%nat
      /\ Forall well_formed_nic nics.
Proof.
  intros region m. rewrite GetINics_is_getNics.
  destruct (get_instance region (trace m) (ID (self m)) expand_instanceView)
    as [instance [e|]] eqn:Hfetch.
  - exists [], (Some e). rewrite (getNics_fetch_failed _ _ _ _ Hfetch).
    repeat split; auto.
  - destruct (getNics_fetched_shape _ _ _ Hfetch) as (nics & Hrun & Hlen & Hwf).
    exists nics, None. rewrite Hrun. repeat split; auto. congruence.
Qed.

(** X8: [getNics] resolves from the record it has just fetched: the cached
    properties of the receiver play no part, only its ID does. *)
Theorem getNics_ignores_cached_properties :
  forall (region : SRegion) (m1 m2 : Machine),
    ID (self m1) = ID (self m2) ->
    trace m1 = trace m2 ->
    (getNics region m1).1 = (getNics region m2).1.
Proof.
  intros region m1 m2 Hid Htr.
  destruct (get_instance region (trace m1) (ID (self m1)) expand_instanceView)
    as [instance [e|]] eqn:Hfetch.
  - rewrite (getNics_fetch_failed _ _ _ _ Hfetch).
    rewrite Hid, Htr in Hfetch.
    now rewrite (getNics_fetch_failed _ _ _ _ Hfetch).
  - pose proof Hfetch as Hfetch2. rewrite Hid, Htr in Hfetch2.
    unfold getNics, GetClassicInstance. mrun. rewrite Hfetch, Hfetch2. simpl.
    rewrite Hid.
    destruct (SubnetNames (VirtualNetwork (NetworkProfile (Properties instance))));
      destruct (nonempty (StaticIpAddress
                            (VirtualNetwork (NetworkProfile (Properties instance)))));
      destruct (InstanceView (Properties instance)) as [view|]; simpl;
      try destruct (nonempty (PrivateIpAddress view)); simpl;
      repeat match goal with
             | |- context [if ?b then _ else _] => destruct b; simpl
             end;
      reflexivity.
Qed.

Lemma getNics_ignores_cached_properties_witness :
  let fetched := mk_instance (Some (mk_view "ReadyRole" "10.0.0.4" []))
                             (mk_vnet "" ["frontend"]) None None None "" in
  let stale := mk_instance (Some (mk_view "Stopped" "10.9.9.9" []))
                           (mk_vnet "10.9.9.1" ["old"]) None None None "Basic_A0" in
  let bare := mk_instance None (mk_vnet "" []) None None None "" in
  let region := mk_region (fetched, None) no_eips None None in
  (getNics region (start stale)).1 = (getNics region (start bare)).1.
Proof.
  intros fetched stale bare region.
  exact (getNics_ignores_cached_properties region (start stale) (start bare)
           eq_refl eq_refl).
Defined.

Lemma GetINics_shape_witness :
  let bare := mk_instance None (mk_vnet "" []) None None None "" in
  let region := mk_region (bare, Some (ErrRemote "503")) no_eips None None in
  exists nics err,
    GetINics region (start bare) =
    (Ret (nics, err), emit (ECall (RGet "vm-1" expand_instanceView) err) (start bare))
    /\ err = Some (ErrRemote "503")
    /\ (err <> None -> nics = [])
    /\ (length nics <= 1)%nat
    /\ Forall well_formed_nic nics.
Proof.
  intros bare region. exact (GetINics_shape region (start bare)).
Defined.

(** ** Further properties of the external address *)

(** The scan looks up a prefix of the candidates, in their order, and writes
    one log line per failed lookup. *)
Lemma GetIEIP_loop_footprint region rs :
  forall m out m',
    GetIEIP_loop region rs m = (out, m') ->
    exists evs k,
      trace m' = trace m ++ evs
      /\ calls evs = map eip_lookup (take k rs)
      /\ length (log_lines evs) = length (failures evs).
Proof.
  induction rs as [|r rest IH]; intros m out m' H.
  - inversion H; subst. exists [], 0%nat. now rewrite app_nil_r.
  - destruct (GetClassicEip region (trace m) (sr_ID r)) as [e|eip] eqn:Hfetch.
    + rewrite (GetIEIP_loop_lookup_failed _ _ _ _ _ Hfetch) in H.
      apply IH in H. destruct H as (evs & k & Htr & Hcalls & Hlogs).
      eexists. exists (S k). split.
      { rewrite Htr. simpl. rewrite <- !app_assoc. reflexivity. }
      simpl. rewrite Hcalls, Hlogs. auto.
    + rewrite (GetIEIP_loop_lookup_ok _ _ _ _ _ Hfetch) in H.
      inversion H; subst; clear H.
      eexists. exists 1%nat. split; [reflexivity|]. simpl.
      destruct rest; auto.
Qed.

(** X9: [GetIEIP] always returns, without error and without touching the
    record; the remote calls it makes are lookups of the reserved IPs of the
    record, in list order and without repetition or gap (a prefix of the
    list), so none at all when the record has no reserved IP; and it writes
    exactly one log line per failed lookup. *)
Theorem GetIEIP_footprint :
  forall (region : SRegion) (m : Machine),
    exists found m' evs k,
      GetIEIP region m = (Ret (found, None), m')
      /\ self m' = self m
      /\ trace m' = trace m ++ evs
      /\ calls evs = map eip_lookup (take k (reserved_candidates (self m)))
      /\ length (log_lines evs) = length (failures evs).
Proof.
  intros region m. rewrite GetIEIP_unfold.
  destruct (GetIEIP_loop region (reserved_candidates (self m)) m) as [out m'] eqn:Hloop.
  destruct (GetIEIP_loop_footprint _ _ _ _ _ Hloop) as (evs & k & Htr & Hcalls & Hlogs).
  destruct (GetIEIP_loop_inv _ _ _ _ _ Hloop)
    as (Hself & _ & _ & [(-> & _)|(r & eip & t & _ & _ & ->)]);
    eexists; exists m', evs, k; auto.
Qed.

(** X10: an external address returned by [GetIEIP], reserved or synthesized,
    carries the ID of this instance as its instance ID. *)
Theorem GetIEIP_marks_instance :
  forall (region : SRegion) (m : Machine) (eip : SClassicEipAddress)
         (err : option error) (m' : Machine),
    GetIEIP region m = (Ret (Some eip, err), m') ->
    eip_instanceId eip = ID (self m).
Proof.
  intros region m eip err m' H. rewrite GetIEIP_unfold in H.
  destruct (GetIEIP_loop region (reserved_candidates (self m)) m) as [out m1] eqn:Hloop.
  destruct (GetIEIP_loop_inv _ _ _ _ _ Hloop)
    as (_ & _ & _ & [(-> & _)|(r & eip0 & t & _ & _ & ->)]).
  - unfold public_ip_fallback in H.
    destruct (InstanceView (Properties (self m))) as [view|]; [|discriminate H].
    destruct (PublicIpAddresses view); inversion H; subst. reflexivity.
  - destruct (attached_elsewhere (ID (self m)) eip0); inversion H; subst. reflexivity.
Qed.

Lemma GetIEIP_marks_instance_witness :
  eip_instanceId (claimed_by "vm-1" (mk_eip "rip-2" (Some (mk_sub "vm-1" "web")))) = "vm-1".
Proof.
  exact (GetIEIP_marks_instance moved_region
           (start (mk_instance None (mk_vnet "" []) (Some [mk_sub "rip-2" "second"])
                               None None ""))
           _ None _ eq_refl).
Defined.

(** ** Further properties of deletion *)

(** X11: [DeleteVM] always returns the result of the deletion of the virtual
    machine and never touches the record.  When that deletion fails it is
    the only remote call; when it succeeds it is followed by the deletion of
    the attached security group, if any, and then of the domain name, if
    any, and by nothing else. *)
Theorem DeleteVM_call_sequence :
  forall (region : SRegion) (m : Machine),
    exists m' evs,
      DeleteVM region m = (Ret (region_DeleteVM region (trace m) (ID (self m))), m')
      /\ self m' = self m
      /\ trace m' = trace m ++ evs
      /\ calls evs =
         RDeleteVM (ID (self m)) ::
         match region_DeleteVM region (trace m) (ID (self m)) with
         | Some _ => []
         | None => cleanup_calls (self m)
         end.
Proof.
  intros region m. unfold DeleteVM, cleanup_calls. mrun.
  destruct (region_DeleteVM region (trace m) (ID (self m))); simpl.
  - do 2 eexists. split; [reflexivity|]. split; [reflexivity|].
    split; reflexivity.
  - destruct (NetworkSecurityGroup (NetworkProfile (Properties (self m))));
      destruct (DomainName (Properties (self m))); simpl;
      do 2 eexists; (split; [reflexivity|]); (split; [reflexivity|]);
      (split; [simpl; rewrite <- ?app_assoc; reflexivity|]); reflexivity.
Qed.

(** ** Further properties of the security group operations *)

(** [AssignSecurityGroup] always returns and leaves the record as it was. *)
Lemma AssignSecurityGroup_self region secgroupId m :
  exists err m', AssignSecurityGroup region secgroupId m = (Ret err, m')
                 /\ self m' = self m.
Proof.
  unfold AssignSecurityGroup. mrun.
  destruct (NetworkSecurityGroup (NetworkProfile (Properties (self m)))) as [g|]; simpl;
    [destruct (String.eqb (sr_ID g) secgroupId); simpl; [eauto|]|];
    match goal with
    | |- context [GetClassicSecurityGroupDetails region ?t ?x] =>
      destruct (GetClassicSecurityGroupDetails region t x)
    end; simpl; eauto.
Qed.

(** X12: [AssignSecurityGroup] never writes the new group into the record:
    whatever it did remotely, [GetSecurityGroupIds] answers afterwards what
    it answered before. *)
Theorem AssignSecurityGroup_keeps_record :
  forall (region : SRegion) (secgroupId : string) (m : Machine),
    exists err m',
      AssignSecurityGroup region secgroupId m = (Ret err, m')
      /\ self m' = self m
      /\ (GetSecurityGroupIds m').1 = (GetSecurityGroupIds m).1.
Proof.
  intros region secgroupId m.
  destruct (AssignSecurityGroup_self region secgroupId m) as (err & m' & Hrun & Hself).
  exists err, m'. split; [exact Hrun|]. split; [exact Hself|].
  unfold GetSecurityGroupIds. mrun. rewrite Hself.
  destruct (NetworkSecurityGroup (NetworkProfile (Properties (self m)))); reflexivity.
Qed.

(** X13: when the requested group is not the attached one, the association
    with the attached group (if any) is deleted first, its result ignored;
    then the requested group is looked up.  If the lookup fails its error is
    returned and no update is sent, the old association being gone already;
    if it succeeds, one update is sent whose body is built from the group as
    fetched, and the result of that update is the result. *)
Theorem AssignSecurityGroup_replaces :
  forall (region : SRegion) (secgroupId : string) (m : Machine),
    (forall g, NetworkSecurityGroup (NetworkProfile (Properties (self m))) = Some g ->
               sr_ID g <> secgroupId) ->
    let m1 :=
      match NetworkSecurityGroup (NetworkProfile (Properties (self m))) with
      | Some g =>
        let old := association_path (ID (self m)) (sr_Name g) in
        emit (ECall (RDel old) (del region (trace m) old)) m
      | None => m
      end in
    let lookup := RGetClassicSecurityGroupDetails secgroupId in
    AssignSecurityGroup region secgroupId m =
    match GetClassicSecurityGroupDetails region (trace m1) secgroupId with
    | inl e => (Ret (Some e), emit (ECall lookup (Some e)) m1)
    | inr secgroup =>
      let body := association_body (ID (self m)) secgroup in
      let m2 := emit (ECall lookup None) m1 in
      (Ret (update region (trace m2) body),
       emit (ECall (RUpdate body) (update region (trace m2) body)) m2)
    end.
Proof.
  intros region secgroupId m Hother m1 lookup. subst m1 lookup.
  unfold AssignSecurityGroup, association_body, association_path. mrun.
  destruct (NetworkSecurityGroup (NetworkProfile (Properties (self m)))) as [g|]; simpl.
  - assert (String.eqb (sr_ID g) secgroupId = false) as ->
      by (apply String.eqb_neq; now apply Hother).
    simpl.
    match goal with
    | |- context [GetClassicSecurityGroupDetails region ?t ?x] =>
      destruct (GetClassicSecurityGroupDetails region t x)
    end; reflexivity.
  - destruct (GetClassicSecurityGroupDetails region (trace m) secgroupId); reflexivity.
Qed.

Lemma AssignSecurityGroup_replaces_witness :
  let down := mk_region (grouped, None) no_eips (Some (ErrRemote "Conflict"))
                        (Some (ErrRemote "404")) in
  AssignSecurityGroup down "nsg-2" (start grouped)
  = (Ret (Some (ErrRemote "404")),
     {| self := grouped;
        trace := [ECall (RDel "vm-1/associatedNetworkSecurityGroups/front")
                        (Some (ErrRemote "Conflict"));
                  ECall (RGetClassicSecurityGroupDetails "nsg-2")
                        (Some (ErrRemote "404"))] |}).
Proof.
  intros down.
  refine (AssignSecurityGroup_replaces down "nsg-2" (start grouped) _).
  intros g Hg. inversion Hg; subst. discriminate.
Defined.

(** X14: a group that [GetSecurityGroupIds] reports is the attached one:
    assigning it again is a no-op. *)
Theorem AssignSecurityGroup_reported_group_noop :
  forall (region : SRegion) (m : Machine) (ids : list string) (err : option error)
         (m1 : Machine) (secgroupId : string),
    GetSecurityGroupIds m = (Ret (ids, err), m1) ->
    secgroupId ∈ ids ->
    AssignSecurityGroup region secgroupId m1 = (Ret None, m1).
Proof.
  intros region m ids err m1 secgroupId Hids Hin.
  unfold GetSecurityGroupIds in Hids. mrun_in Hids.
  unfold AssignSecurityGroup. mrun.
  destruct (NetworkSecurityGroup (NetworkProfile (Properties (self m)))) as [g|] eqn:Hg;
    inversion Hids; subst; clear Hids.
  - apply list_elem_of_singleton in Hin. subst secgroupId.
    rewrite Hg. now rewrite String.eqb_refl.
  - apply elem_of_nil in Hin. contradiction.
Qed.

Lemma AssignSecurityGroup_reported_group_noop_witness :
  AssignSecurityGroup del_fails_region "nsg-1" (start grouped)
  = (Ret None, start grouped).
Proof.
  exact (AssignSecurityGroup_reported_group_noop del_fails_region (start grouped)
           ["nsg-1"] None (start grouped) "nsg-1" eq_refl (list_elem_of_here _ _)).
Defined.

(** ** Further properties of the disks and of the refresh *)

(** X15: [GetIDisks] always returns, after exactly one call, a fetch of
    "<instance ID>/disks" without parameters, and without touching the
    record; on success it returns the disks as fetched; on failure it returns
    no disk at all, whatever was decoded, together with the error wrapped
    first with "list" and then with "GetClassicInstanceDisks". *)
Theorem GetIDisks_shape :
  forall (region : SRegion) (m : Machine),
    let resource := ID (self m) +:+ "/disks" in
    let answer := get_disks region (trace m) resource in
    GetIDisks region m =
    (Ret (match answer.2 with
          | Some e => ([], Some (Wrapf (Wrapf e "list") "GetClassicInstanceDisks"))
          | None => (answer.1, None)
          end),
     emit (ECall (RGet resource []) answer.2) m).
Proof.
  intros region m resource answer. subst resource answer.
  unfold GetIDisks, GetClassicInstanceDisks. mrun.
  destruct (get_disks region (trace m) (ID (self m) +:+ "/disks")) as [value [e|]];
    reflexivity.
Qed.

(** X16: the refresh inside [GetStatus] is [Refresh] itself.  On a record
    without view, [GetStatus] does what an explicit [Refresh] followed by
    [GetStatus] does when the refresh succeeds and brings a view, and when
    the refresh fails it logs the name of the record as [Refresh] left it
    and answers Unknown. *)
Theorem GetStatus_is_lazy_Refresh :
  forall (region : SRegion) (upd : SClassicInstance -> SClassicInstance ->
                                   SClassicInstance * option error)
         (m m1 : Machine) (err : option error),
    InstanceView (Properties (self m)) = None ->
    Refresh region upd m = (Ret err, m1) ->
    match err with
    | Some _ =>
      GetStatus region upd m =
      (Ret VM_UNKNOWN,
       emit (ELog ("failed to get status for classic instance " +:+ Name (self m1))) m1)
    | None =>
      is_Some (InstanceView (Properties (self m1))) ->
      GetStatus region upd m = GetStatus region upd m1
    end.
Proof.
  intros region upd m m1 err Hnil Hrefresh.
  destruct err as [e|].
  - unfold GetStatus. mrun. rewrite Hnil, Hrefresh. reflexivity.
  - intros [view Hview]. unfold GetStatus. mrun.
    rewrite Hnil, Hrefresh, Hview. simpl. now rewrite Hview.
Qed.

Lemma GetStatus_is_lazy_Refresh_witness :
  let bare := mk_instance None (mk_vnet "" []) None None None "" in
  let fresh := mk_instance (Some (mk_view "Stopped" "" [])) (mk_vnet "" [])
                           None None None "" in
  let region := mk_region (fresh, None) no_eips None None in
  let m1 := {| self := fresh;
               trace := [ECall (RGet "vm-1" [("$expand", "instanceView")]) None] |} in
  GetStatus region overwrite_Update (start bare) = GetStatus region overwrite_Update m1.
Proof.
  intros bare fresh region m1.
  exact (GetStatus_is_lazy_Refresh region overwrite_Update (start bare) m1 None
           eq_refl eq_refl (ex_intro _ (mk_view "Stopped" "" []) eq_refl)).
Defined.

(** ** System tags *)

(** X17: [GetSysTags] makes no remote call and returns a map with exactly two
    keys: "price_key", bound to "<size>::<region name>" with the size that
    [GetInstanceType] reports, and "zone_ext_id", bound to the global ID of
    the zone. *)
Theorem GetSysTags_keys :
  forall (regionName zoneGlobalId : string) (m : Machine),
    exists data size,
      GetSysTags regionName zoneGlobalId m = (Ret data, m)
      /\ GetInstanceType m = (Ret size, m)
      /\ data !! "price_key" = Some (size +:+ "::" +:+ regionName)
      /\ data !! "zone_ext_id" = Some zoneGlobalId
      /\ dom data = ({["price_key"; "zone_ext_id"]} : gset string).
Proof.
  intros regionName zoneGlobalId m.
  eexists. exists (Size (HardwareProfile (Properties (self m)))).
  split; [reflexivity|]. split; [reflexivity|].
  split; [|split].
  - rewrite lookup_insert_ne by discriminate. apply lookup_insert_eq.
  - apply lookup_insert_eq.
  - rewrite !dom_insert_L, dom_empty_L. set_solver.
Qed.
